(** * Map_service: a shallow embedding of [Map_service.cpp]

  The program computes, for an itinerary given on the command line as
  tokens [Name(line)] ... [Name], the track distance, the travel time and
  the great-circle distance of every leg, and prints the legs joined by a
  comma.

  Conventions of the embedding:
  - [double] is IEEE binary64, i.e. Rocq's primitive [float]; arithmetic,
    comparison, [std::abs] and [std::sqrt] are the primitive operations;
  - [std::sin], [std::cos] and [std::atan2] belong to the C library, not to
    the program: they are the fields of a record [Libm] every definition
    that needs them is parameterised by;
  - [std::string] is [string] (a sequence of bytes, so a Korean station
    name is its UTF-8 encoding), [size_t] is a [Z] below [2^64];
  - [std::map<std::string, Line>] is [gmap string Line];
  - a member function of [Subway] takes the map [lines] and, when the C++
    text may write to it, returns the map it leaves behind;
  - an uncaught [std::out_of_range] is [None]. *)

From Stdlib Require Import ZArith QArith Qabs String Ascii List Floats
  DecimalString Lia.
From stdpp Require Import gmap strings.

Set Warnings "-inexact-float".
Local Open Scope Z_scope.

(** ** The parts of the C++ library the program uses *)

Module Std.

(** [size_t] on the 64-bit target: arithmetic is modulo [2^64]. *)
Definition size_t_modulus : Z := 2 ^ 64.
Definition size_t_add (a b : Z) : Z := (a + b) mod size_t_modulus.
Definition size_t_sub (a b : Z) : Z := (a - b) mod size_t_modulus.

(** [std::string::npos], which is [(size_t)-1]. *)
Definition npos : Z := size_t_modulus - 1.

(** A [std::string] holds fewer than [npos] bytes ([max_size() < npos]). *)
Definition representable (s : string) : Prop :=
  Z.of_nat (String.length s) < npos.

(** [s.find(c)], scanning from index [i]. *)
Fixpoint find_from (c : ascii) (s : string) (i : Z) : Z :=
  match s with
  | EmptyString => npos
  | String a s' => if Ascii.eqb a c then i else find_from c s' (i + 1)
  end.

(** [s.find(c)]: the index of the first [c], or [npos]. *)
Definition find (s : string) (c : ascii) : Z := find_from c s 0.

(** [s.substr(pos, n)]: throws [std::out_of_range] when [pos > size()],
    otherwise the characters [pos, pos + min(n, size() - pos))]. *)
Definition substr (s : string) (pos n : Z) : option string :=
  let size := Z.of_nat (String.length s) in
  if size <? pos then None
  else Some (String.substring (Z.to_nat pos)
                              (Z.to_nat (Z.min n (size - pos))) s).

(** [os << n] for an [int]. *)
Definition put_int (n : Z) : string := NilZero.string_of_int (Z.to_int n).

(** [m * 2^e * 10] rounded to the nearest integer, ties to even: the
    rounding that the fixed notation applies to the exact binary value. *)
Definition tenths (m : positive) (e : Z) : Z :=
  let n := 10 * Z.pos m in
  if 0 <=? e then n * 2 ^ e
  else
    let d := 2 ^ (- e) in
    let q := n / d in
    match 2 * (n mod d) ?= d with
    | Lt => q
    | Gt => q + 1
    | Eq => if Z.even q then q else q + 1
    end.

Definition put_sign (s : bool) : string := if s then "-" else "".

(** [os << std::fixed << std::setprecision(1) << x] for a [double].
    The sign of a NaN is not represented by [float]: it prints as [nan]. *)
Definition put_fixed1 (x : float) : string :=
  match Prim2SF x with
  | S754_nan => "nan"
  | S754_infinity s => put_sign s +:+ "inf"
  | S754_zero s => put_sign s +:+ "0.0"
  | S754_finite s m e =>
      let t := tenths m e in
      put_sign s +:+ put_int (t / 10) +:+ "." +:+ put_int (t mod 10)
  end.

(** [std::round]: to the nearest integral value, halfway cases away from
    zero; infinities, NaN and zeros are returned unchanged. *)
Definition round (x : float) : float :=
  match Prim2SF x with
  | S754_finite s m e =>
      if 0 <=? e then x
      else
        let d := 2 ^ (- e) in
        let q := Z.pos m / d in
        let n := if 2 * (Z.pos m mod d) <? d then q else q + 1 in
        SF2Prim (binary_normalize prec emax (cond_Zopp s n) 0 s)
  | _ => x
  end.

Definition INT_MIN : Z := - 2 ^ 31.
Definition INT_MAX : Z := 2 ^ 31 - 1.

(** [(int)x]: truncation toward zero.  For a value outside the range of
    [int], and for NaN, C++ leaves the conversion undefined; the model
    returns what the conversion instruction of x86-64 returns,
    [INT_MIN]. *)
Definition int_of_double (x : float) : Z :=
  match Prim2SF x with
  | S754_zero _ => 0
  | S754_finite s m e =>
      let v := cond_Zopp s
                 (if 0 <=? e then Z.pos m * 2 ^ e else Z.pos m / 2 ^ (- e)) in
      if (INT_MIN <=? v) && (v <=? INT_MAX) then v else INT_MIN
  | _ => INT_MIN
  end.

(** The line feed written by [std::endl]. *)
Definition endl : string := String (ascii_of_nat 10) EmptyString.

(** [std::sin], [std::cos], [std::atan2]. *)
Record Libm : Type := {
  sin : float -> float;
  cos : float -> float;
  atan2 : float -> float -> float
}.

End Std.

Import Std.

(** ** Constants and data structures *)

(** Earth radius (km). *)
Definition R : float := 6371.0%float.
Definition PI : float := 3.14159265358979323846%float.

Definition toRad (degree : float) : float := (degree * PI / 180.0)%float.

Record Station : Type := {
  name : string;
  distFromStart : float;
  lat : float;
  lon : float
}.

(** The constructor [Station(n, d, la = 0.0, lo = 0.0)]. *)
Definition mkStation (n : string) (d la lo : float) : Station :=
  {| name := n; distFromStart := d; lat := la; lon := lo |}.

Record Line : Type := {
  lineName : string;
  stations : list Station;
  avgSpeed : float
}.

(** [Line()]: the default speed is 40 km/h. *)
Definition Line_default : Line :=
  {| lineName := ""; stations := []; avgSpeed := 40.0%float |}.

(** [Line(name, speed)]. *)
Definition Line_new (n : string) (speed : float) : Line :=
  {| lineName := n; stations := []; avgSpeed := speed |}.

(** [Line::findStation]: the first station of that name, [nullptr] as [None]. *)
Fixpoint findStation_in (l : list Station) (n : string) : option Station :=
  match l with
  | [] => None
  | s :: rest => if String.eqb (name s) n then Some s else findStation_in rest n
  end.

Definition findStation (line : Line) (n : string) : option Station :=
  findStation_in (stations line) n.

(** [Line::addStation]: [emplace_back] at the end of the vector. *)
Definition addStation (line : Line) (n : string) (dist la lo : float) : Line :=
  {| lineName := lineName line;
     stations := stations line ++ [mkStation n dist la lo];
     avgSpeed := avgSpeed line |}.

(** [addStation(name, dist)] with the default coordinates. *)
Definition addStation0 (line : Line) (n : string) (dist : float) : Line :=
  addStation line n dist 0.0%float 0.0%float.

(** [lines[key]] of [std::map]: an absent key is inserted with [Line()]. *)
Definition lines_index (lines : gmap string Line) (key : string)
  : Line * gmap string Line :=
  match lines !! key with
  | Some l => (l, lines)
  | None => (Line_default, <[key := Line_default]> lines)
  end.

(** ** class Subway *)

Section Subway.

Variable libm : Libm.

(** [Subway::calcStraightDist]. *)
Definition calcStraightDist (lat1 lon1 lat2 lon2 : float) : float :=
  if ((lat1 =? 0.0) || (lat2 =? 0.0))%float then 0.0%float
  else
    let dLat := toRad (lat2 - lat1) in
    let dLon := toRad (lon2 - lon1) in
    let a := (sin libm (dLat / 2.0) * sin libm (dLat / 2.0) +
              cos libm (toRad lat1) * cos libm (toRad lat2) *
              sin libm (dLon / 2.0) * sin libm (dLon / 2.0))%float in
    let c := (2.0 * atan2 libm (sqrt a) (sqrt (1.0 - a)))%float in
    (R * c)%float.

(** The hard-coded network of [loadData]. *)
Definition arex : Line :=
  let l := Line_new "arex" 60.0%float in
  let l := addStation l "계양역" 0.0%float 37.571%float 126.736%float in
  let l := addStation l "김포공항역" 6.6%float 37.562%float 126.801%float in
  addStation l "마곡나루역" 9.5%float 37.567%float 126.829%float.

Definition line9 : Line :=
  let l := Line_new "9" 47.0%float in
  let l := addStation0 l "개화" 0.0%float in
  let l := addStation l "김포공항역" 3.6%float 37.562%float 126.801%float in
  let l := addStation0 l "가양" 10.5%float in
  let l := addStation0 l "염창" 13.0%float in
  let l := addStation0 l "당산" 16.5%float in
  let l := addStation0 l "여의도" 19.0%float in
  addStation l "노량진역" 22.0%float 37.514%float 126.942%float.

(** [Subway::loadData].  Whether the CSV file opens or not only decides
    between reading one header line and a warning on [std::cerr]; the map
    is then filled by the two assignments [lines["arex"] = arex] and
    [lines["9"] = line9]. *)
Definition loadData (lines : gmap string Line) : gmap string Line :=
  <["9" := line9]> (<["arex" := arex]> lines).

(** [Subway::calculateSegment]: the returned string and the map after the
    call; [ss] is the content of the [std::stringstream]. *)
Definition calculateSegment (lines : gmap string Line)
           (startName endName lineTag : string)
  : string * gmap string Line :=
  let targetLine := lineTag in
  match lines !! targetLine with
  | None => ("Error: 존재하지 않는 노선(" +:+ targetLine +:+ ")", lines)
  | Some _ =>
      let '(line, lines') := lines_index lines targetLine in
      match findStation line startName, findStation line endName with
      | Some s1, Some s2 =>
          let distance := abs (distFromStart s1 - distFromStart s2) in
          let straightDist :=
            calcStraightDist (lat s1) (lon s1) (lat s2) (lon s2) in
          let timeMinutes := (distance / avgSpeed line * 60.0)%float in
          let ss := put_fixed1 distance +:+ "km" in
          let ss := ss +:+ "(" +:+ put_int (int_of_double (round timeMinutes))
                       +:+ "분, " in
          let ss := ss +:+ startName +:+ "-" +:+ endName in
          let ss := if (0.0 <? straightDist)%float
                    then ss +:+ ", 직선 " +:+ put_fixed1 straightDist +:+ "km"
                    else ss in
          let ss := ss +:+ ")" in
          (ss, lines')
      | _, _ =>
          ("Error: 역을 찾을 수 없음 (" +:+ startName +:+ " or " +:+ endName
             +:+ ")", lines')
      end
  end.

End Subway.

(** ** Token parsing *)

(** The test [openParen != npos && closeParen != npos]. *)
Definition hasLineTag (token : string) : bool :=
  negb (find token "(" =? npos) && negb (find token ")" =? npos).

(** [parseToken]: the pair of the out-parameters [(name, line)]. *)
Definition parseToken (token : string) : option (string * string) :=
  let openParen := find token "(" in
  let closeParen := find token ")" in
  if hasLineTag token then
  match substr token 0 openParen with
  | None => None
  | Some n =>
      match substr token (size_t_add openParen 1)
                   (size_t_sub (size_t_sub closeParen openParen) 1) with
      | None => None
      | Some l => Some (n, l)
      end
  end
  else Some (token, EmptyString).

(** ** main *)

Section Main.

Variable libm : Libm.

Definition usage : string :=
  "Usage: ./a.out <Start(line)> <Transfer(line)> ... <End>" +:+ endl +:+
  "Ex: ./a.out 계양역(arex) 김포공항역(9) 노량진역" +:+ endl.

(** One turn of the loop of [main], for the index [i]; the state is the
    string [result] and the map held by [subwaySystem]. *)
Definition route_step (argv : list string)
           (st : option (string * gmap string Line)) (i : nat)
  : option (string * gmap string Line) :=
  match st with
  | None => None
  | Some (result, lines) =>
      let currentToken := nth i argv EmptyString in
      let nextToken := nth (i + 1) argv EmptyString in
      match parseToken currentToken, parseToken nextToken with
      | Some (currentName, currentLine), Some (nextName, nextLine_unused) =>
          let result := if (1 <? i)%nat then result +:+ ", " else result in
          let '(seg, lines') :=
            calculateSegment libm lines currentName nextName currentLine in
          Some (result +:+ seg, lines')
      | _, _ => None
      end
  end.

(** [for (int i = 1; i < argc - 1; ++i)]. *)
Definition route (argv : list string) (lines : gmap string Line)
  : option (string * gmap string Line) :=
  fold_left (route_step argv) (seq 1 (List.length argv - 2))
            (Some (EmptyString, lines)).

(** [main]: the exit status and what is written to [std::cout]. *)
Definition main (argv : list string) : option (Z * string) :=
  let argc := List.length argv in
  if (argc <? 3)%nat then Some (1, usage)
  else
    let lines := loadData ∅ in
    match route argv lines with
    | None => None
    | Some (result, _) => Some (0, result +:+ endl)
    end.

End Main.


(** ** The vocabulary of the specification *)

(** The haversine formula on a sphere of radius [R], angles in degrees. *)
Definition haversine (libm : Libm) (lat1 lon1 lat2 lon2 : float) : float :=
  let dLat := toRad (lat2 - lat1) in
  let dLon := toRad (lon2 - lon1) in
  let a := (sin libm (dLat / 2.0) * sin libm (dLat / 2.0) +
            cos libm (toRad lat1) * cos libm (toRad lat2) *
            sin libm (dLon / 2.0) * sin libm (dLon / 2.0))%float in
  (R * (2.0 * atan2 libm (sqrt a) (sqrt (1.0 - a))))%float.

(** The three numbers of a leg between two stations of a line. *)
Definition trackDistance (s1 s2 : Station) : float :=
  abs (distFromStart s1 - distFromStart s2).

Definition straightDistance (libm : Libm) (s1 s2 : Station) : float :=
  calcStraightDist libm (lat s1) (lon s1) (lat s2) (lon s2).

Definition timeMinutes (line : Line) (s1 s2 : Station) : float :=
  (trackDistance s1 s2 / avgSpeed line * 60.0)%float.

(** The optional clause [, 직선 {straightDistance}km]. *)
Definition straightClause (straightDist : float) : string :=
  if (0.0 <? straightDist)%float
  then ", 직선 " +:+ put_fixed1 straightDist +:+ "km"
  else EmptyString.

(** The form
    [{trackDistance}km({timeMinutes}분, {start}-{end}[, 직선 {straightDistance}km])]. *)
Definition render (startName endName : string)
           (distance straightDist time : float) : string :=
  put_fixed1 distance +:+ "km(" +:+ put_int (int_of_double (round time))
  +:+ "분, " +:+ startName +:+ "-" +:+ endName
  +:+ straightClause straightDist +:+ ")".

(** The texts of the two error kinds, LineNotFound and StationNotFound. *)
Definition lineNotFound (targetLine : string) : string :=
  "Error: 존재하지 않는 노선(" +:+ targetLine +:+ ")".

Definition stationNotFound (startName endName : string) : string :=
  "Error: 역을 찾을 수 없음 (" +:+ startName +:+ " or " +:+ endName +:+ ")".

(** "The token contains the character [c]". *)
Fixpoint contains (s : string) (c : ascii) : bool :=
  match s with
  | EmptyString => false
  | String a s' => Ascii.eqb a c || contains s' c
  end.

(** "The substring between the two markers", for marker positions [i] and
    [j] in either order: the characters strictly after the smaller and
    strictly before the larger position. *)
Definition between (token : string) (i j : Z) : string :=
  String.substring (Z.to_nat (Z.min i j) + 1)
                   (Z.to_nat (Z.max i j - Z.min i j - 1)) token.

(** The name and the line tag parsed out of a token; [parseToken] never
    throws (lemma [parseToken_some]), the default is not reached. *)
Definition tokenName (token : string) : string :=
  match parseToken token with Some (n, _) => n | None => EmptyString end.

Definition tokenLine (token : string) : string :=
  match parseToken token with Some (_, l) => l | None => EmptyString end.

(** The leg computed for two adjacent tokens on the network [lines]: names
    of both tokens, line tag of the first one only. *)
Definition segmentOf (libm : Libm) (lines : gmap string Line)
           (current next : string) : string :=
  fst (calculateSegment libm lines
         (tokenName current) (tokenName next) (tokenLine current)).

(** The legs of a token sequence, from left to right. *)
Definition segmentsOf (libm : Libm) (lines : gmap string Line)
           (tokens : list string) (k : nat) : list string :=
  map (fun i => segmentOf libm lines (nth i tokens EmptyString)
                          (nth (i + 1) tokens EmptyString))
      (seq 0 k).



(** "A number": zero or a finite double, neither infinite nor NaN. *)
Definition is_number (x : float) : bool :=
  match Prim2SF x with
  | S754_zero _ | S754_finite _ _ _ => true
  | _ => false
  end.

(** ** A sample C library

    Truncated Taylor series in binary64, accurate to the last digits for
    the small angles that the built-in network leads to ([atan2] for
    [0 <= y] much smaller than [x]).  The properties below hold for every
    [Libm]; this one instantiates them on concrete journeys. *)

Module SampleLibm.

Definition sin (x : float) : float :=
  let x2 := (x * x)%float in
  (x * (1 - x2 / 6 * (1 - x2 / 20 * (1 - x2 / 42 * (1 - x2 / 72 *
       (1 - x2 / 110 * (1 - x2 / 156 * (1 - x2 / 210 *
       (1 - x2 / 272)))))))))%float.

Definition cos (x : float) : float :=
  let x2 := (x * x)%float in
  (1 - x2 / 2 * (1 - x2 / 12 * (1 - x2 / 30 * (1 - x2 / 56 *
       (1 - x2 / 90 * (1 - x2 / 132 * (1 - x2 / 182 *
       (1 - x2 / 240))))))))%float.

Definition atan2 (y x : float) : float :=
  let t := (y / x)%float in
  let t2 := (t * t)%float in
  (t * (1 - t2 * (1 / 3 - t2 * (1 / 5 - t2 * (1 / 7 - t2 / 9)))))%float.

Definition libm : Libm :=
  {| Std.sin := sin; Std.cos := cos; Std.atan2 := atan2 |}.

End SampleLibm.

(** ** Vocabulary of the further properties *)

(** "A finite double other than zero". *)
Definition is_finite (x : float) : bool :=
  match Prim2SF x with
  | S754_finite _ _ _ => true
  | _ => false
  end.

(** The sine of the C library is an odd function: [sin(-x) = -sin(x)]. *)
Definition odd_sin (libm : Libm) : Prop :=
  forall x : float, sin libm (- x) = (- sin libm x)%float.

(** [s] begins with [p]. *)
Definition begins_with (p s : string) : Prop :=
  exists rest : string, s = p +:+ rest.





(** * Properties *)

(** ** Strings *)

Section StringFacts.

Local Open Scope nat_scope.

Lemma append_cons (a : ascii) (s t : string) :
  String a s +:+ t = String a (s +:+ t).
Proof. reflexivity. Qed.

Lemma append_nil_l (s : string) : EmptyString +:+ s = s.
Proof. reflexivity. Qed.

Lemma append_nil_r (s : string) : s +:+ EmptyString = s.
Proof.
  induction s as [|a s IH]; [reflexivity |].
  now rewrite append_cons, IH.
Qed.

Lemma append_assoc (s t u : string) : (s +:+ t) +:+ u = s +:+ (t +:+ u).
Proof.
  induction s as [|a s IH]; [reflexivity |].
  now rewrite !append_cons, IH.
Qed.

Lemma length_append (s t : string) :
  String.length (s +:+ t) = String.length s + String.length t.
Proof.
  induction s as [|a s IH]; [reflexivity |].
  rewrite append_cons. simpl. now rewrite IH.
Qed.

Lemma substring_all (s : string) (n : nat) :
  String.length s <= n -> substring 0 n s = s.
Proof.
  revert n; induction s as [|a s IH]; intros [|n] H; simpl in *;
    try reflexivity; try lia.
  rewrite IH by lia. reflexivity.
Qed.

Lemma substring_prefix (s t : string) :
  substring 0 (String.length s) (s +:+ t) = s.
Proof.
  induction s as [|a s IH].
  - rewrite append_nil_l. destruct t; reflexivity.
  - rewrite append_cons. simpl. now rewrite IH.
Qed.

Lemma substring_skip (s t : string) (n : nat) :
  substring (String.length s) n (s +:+ t) = substring 0 n t.
Proof.
  induction s as [|a s IH]; [reflexivity |].
  rewrite append_cons. simpl. exact IH.
Qed.

Lemma substring_middle (s t u : string) :
  substring (String.length s) (String.length t) (s +:+ t +:+ u) = t.
Proof. rewrite substring_skip. apply substring_prefix. Qed.

Lemma contains_append (s t : string) (c : ascii) :
  contains (s +:+ t) c = contains s c || contains t c.
Proof.
  induction s as [|a s IH]; [reflexivity |].
  rewrite append_cons. simpl. rewrite IH. now rewrite orb_assoc.
Qed.

(** A string that contains [c] splits at the first [c]. *)
Lemma contains_split (s : string) (c : ascii) :
  contains s c = true ->
  exists pre post, s = pre +:+ String c post /\ contains pre c = false.
Proof.
  induction s as [|a s IH]; simpl; [discriminate |].
  destruct (Ascii.eqb_spec a c) as [-> | Hne]; simpl.
  - intros _. exists EmptyString, s. split; reflexivity.
  - intros H. destruct (IH H) as (pre & post & -> & Hpre).
    exists (String a pre), post. split; [reflexivity |].
    simpl. rewrite Hpre. now destruct (Ascii.eqb_spec a c).
Qed.

End StringFacts.

Section FindFacts.

Lemma find_from_absent (c : ascii) (s : string) (i : Z) :
  contains s c = false -> find_from c s i = npos.
Proof.
  revert i; induction s as [|a s IH]; intros i H; simpl in *; [reflexivity |].
  apply orb_false_iff in H as [Ha Hs]. rewrite Ha. now apply IH.
Qed.

Lemma find_from_first (c : ascii) (pre post : string) (i : Z) :
  contains pre c = false ->
  find_from c (pre +:+ String c post) i = i + Z.of_nat (String.length pre).
Proof.
  revert i; induction pre as [|a pre IH]; intros i H.
  - rewrite append_nil_l. simpl. rewrite Ascii.eqb_refl. lia.
  - rewrite append_cons. simpl in *.
    apply orb_false_iff in H as [Ha Hs]. rewrite Ha, IH by assumption. lia.
Qed.

(** [find] answers [npos] or an index inside the string. *)
Lemma find_from_range (c : ascii) (s : string) (i : Z) :
  find_from c s i = npos \/
  i <= find_from c s i < i + Z.of_nat (String.length s).
Proof.
  revert i; induction s as [|a s IH]; intros i; simpl; [now left |].
  destruct (Ascii.eqb a c); simpl.
  - right. lia.
  - destruct (IH (i + 1)) as [H | H]; [now left | right; lia].
Qed.

Lemma find_first (c : ascii) (pre post : string) :
  contains pre c = false ->
  find (pre +:+ String c post) c = Z.of_nat (String.length pre).
Proof. intros H. unfold find. now rewrite find_from_first. Qed.

Lemma find_absent (c : ascii) (s : string) :
  contains s c = false -> find s c = npos.
Proof. apply find_from_absent. Qed.

Lemma find_present (c : ascii) (s : string) :
  representable s -> contains s c = true -> find s c <> npos.
Proof.
  intros Hrep Hc. destruct (contains_split s c Hc) as (pre & post & -> & Hpre).
  rewrite find_first by assumption.
  unfold representable in Hrep. rewrite length_append in Hrep. simpl in Hrep.
  lia.
Qed.

End FindFacts.

(** ** parseToken *)

Section ParseTokenFacts.

Lemma npos_value : npos = 18446744073709551615.
Proof. reflexivity. Qed.

Lemma size_t_add_small (a b : Z) :
  0 <= a + b < npos -> size_t_add a b = a + b.
Proof.
  intros H. unfold size_t_add. apply Z.mod_small.
  rewrite npos_value in H. change size_t_modulus with 18446744073709551616.
  lia.
Qed.

Lemma size_t_sub_small (a b : Z) :
  0 <= a - b < npos -> size_t_sub a b = a - b.
Proof.
  intros H. unfold size_t_sub. apply Z.mod_small.
  rewrite npos_value in H. change size_t_modulus with 18446744073709551616.
  lia.
Qed.

(** The subtraction of a larger index wraps around. *)
Lemma size_t_sub_wrap (a b : Z) :
  - npos <= a - b < 0 -> size_t_sub a b = a - b + npos + 1.
Proof.
  intros H. unfold size_t_sub. symmetry.
  rewrite npos_value in *. change size_t_modulus with 18446744073709551616.
  apply Z.mod_unique with (q := -1); lia.
Qed.

Lemma hasLineTag_absent (token : string) :
  contains token "(" = false \/ contains token ")" = false ->
  hasLineTag token = false.
Proof.
  unfold hasLineTag. intros [H | H]; rewrite (find_absent _ _ H).
  - reflexivity.
  - rewrite Z.eqb_refl. apply andb_false_r.
Qed.

Lemma hasLineTag_present (token : string) :
  representable token ->
  contains token "(" = true -> contains token ")" = true ->
  hasLineTag token = true.
Proof.
  intros Hrep Ho Hc. unfold hasLineTag.
  apply (find_present _ _ Hrep), Z.eqb_neq in Ho, Hc.
  now rewrite Ho, Hc.
Qed.

Lemma hasLineTag_false_absent (token : string) :
  representable token -> hasLineTag token = false ->
  contains token "(" = false \/ contains token ")" = false.
Proof.
  intros Hrep H.
  destruct (contains token "(") eqn:Ho; [| now left].
  destruct (contains token ")") eqn:Hc; [| now right].
  rewrite hasLineTag_present in H by assumption. discriminate.
Qed.

Lemma substr_prefix (pre rest : string) :
  substr (pre +:+ rest) 0 (Z.of_nat (String.length pre)) = Some pre.
Proof.
  unfold substr. rewrite length_append.
  destruct (Z.ltb_spec (Z.of_nat (String.length pre + String.length rest)) 0);
    [lia |].
  rewrite Z.min_l by lia. rewrite Nat2Z.id. simpl Z.to_nat.
  now rewrite substring_prefix.
Qed.

Lemma substr_middle (pre mid rest : string) (pos n : Z) :
  pos = Z.of_nat (String.length pre) ->
  n = Z.of_nat (String.length mid) ->
  substr (pre +:+ mid +:+ rest) pos n = Some mid.
Proof.
  intros -> ->. unfold substr. rewrite !length_append.
  match goal with |- context [?a <? ?b] => destruct (Z.ltb_spec a b) end;
    [lia |].
  rewrite Z.min_l by lia. rewrite !Nat2Z.id.
  now rewrite substring_middle.
Qed.

Lemma substr_suffix (pre post : string) (pos n : Z) :
  pos = Z.of_nat (String.length pre) ->
  Z.of_nat (String.length post) <= n ->
  substr (pre +:+ post) pos n = Some post.
Proof.
  intros -> Hn. unfold substr. rewrite !length_append.
  match goal with |- context [?a <? ?b] => destruct (Z.ltb_spec a b) end;
    [lia |].
  rewrite Z.min_r by lia. rewrite Nat2Z.id, substring_skip.
  rewrite substring_all by lia. reflexivity.
Qed.

(** [parseToken] never throws: [substr] is called with [pos <= size()]. *)
Lemma parseToken_some (token : string) :
  exists n l, parseToken token = Some (n, l).
Proof.
  unfold parseToken. destruct (hasLineTag token) eqn:Htag; [| eauto].
  unfold hasLineTag in Htag. apply andb_true_iff in Htag as [Ho _].
  apply negb_true_iff, Z.eqb_neq in Ho.
  destruct (find_from_range "(" token 0) as [H | H]; [now elim Ho |].
  fold (find token "(") in H.
  assert (Hle : size_t_add (find token "(") 1
                <= Z.of_nat (String.length token)).
  { unfold size_t_add.
    pose proof (Z.mod_le (find token "(" + 1) size_t_modulus).
    change size_t_modulus with 18446744073709551616 in *. lia. }
  unfold substr. simpl (_ <? 0).
  destruct (Z.ltb_spec (Z.of_nat (String.length token)) 0); [lia |].
  destruct (Z.ltb_spec (Z.of_nat (String.length token))
              (size_t_add (find token "(") 1)); [lia |].
  eauto.
Qed.

(** A token [n(l)rest]: the first parenthesis opens, the first closing one
    comes later. *)
Lemma parseToken_ordered (n l rest : string) :
  representable (n +:+ "(" +:+ l +:+ ")" +:+ rest) ->
  contains n "(" = false -> contains n ")" = false ->
  contains l ")" = false ->
  parseToken (n +:+ "(" +:+ l +:+ ")" +:+ rest) = Some (n, l).
Proof.
  intros Hrep Hno Hnc Hlc.
  set (token := n +:+ "(" +:+ l +:+ ")" +:+ rest) in *.
  assert (Hlen : Z.of_nat (String.length n) + 1 + Z.of_nat (String.length l)
                 < npos).
  { unfold representable, token in Hrep.
    rewrite !length_append in Hrep. simpl in Hrep. lia. }
  assert (Ho : find token "(" = Z.of_nat (String.length n)).
  { unfold token. now apply (find_first "(" n). }
  assert (Hc : find token ")"
               = Z.of_nat (String.length n) + 1 + Z.of_nat (String.length l)).
  { unfold token.
    replace (n +:+ "(" +:+ l +:+ ")" +:+ rest)
      with ((n +:+ "(" +:+ l) +:+ String ")" rest)
      by (now rewrite !append_assoc).
    rewrite find_first.
    - rewrite !length_append. simpl. lia.
    - rewrite !contains_append, Hnc, Hlc. reflexivity. }
  unfold parseToken, hasLineTag. rewrite Ho, Hc.
  destruct (Z.eqb_spec (Z.of_nat (String.length n)) npos); [lia |].
  destruct (Z.eqb_spec (Z.of_nat (String.length n) + 1
                        + Z.of_nat (String.length l)) npos); [lia |].
  simpl. unfold token at 1. rewrite substr_prefix.
  rewrite size_t_add_small by lia.
  rewrite (size_t_sub_small (_ + 1 + _)) by lia.
  rewrite size_t_sub_small by lia.
  unfold token.
  replace (n +:+ "(" +:+ l +:+ ")" +:+ rest)
    with ((n +:+ "(") +:+ l +:+ (")" +:+ rest))
    by (now rewrite !append_assoc).
  rewrite (substr_middle (n +:+ "(") l); [reflexivity | |].
  - rewrite length_append. simpl. lia.
  - lia.
Qed.

(** A token whose first closing parenthesis comes before the first opening
    one: the length passed to [substr] wraps around and the line tag is all
    that follows the opening parenthesis. *)
Lemma parseToken_reversed (pre post : string) :
  representable (pre +:+ "(" +:+ post) ->
  contains pre "(" = false -> contains pre ")" = true ->
  parseToken (pre +:+ "(" +:+ post) = Some (pre, post).
Proof.
  intros Hrep Hno Hc.
  set (token := pre +:+ "(" +:+ post) in *.
  assert (Hlen : Z.of_nat (String.length pre) + 1
                 + Z.of_nat (String.length post) < npos).
  { unfold representable, token in Hrep.
    rewrite !length_append in Hrep. simpl in Hrep. lia. }
  assert (Ho : find token "(" = Z.of_nat (String.length pre)).
  { unfold token. now apply (find_first "(" pre). }
  destruct (contains_split pre ")" Hc) as (p1 & p2 & Hpre & Hp1).
  assert (Hc' : find token ")" = Z.of_nat (String.length p1)).
  { unfold token. rewrite Hpre, append_assoc, append_cons.
    now apply (find_first ")" p1). }
  assert (Hlt : Z.of_nat (String.length p1) < Z.of_nat (String.length pre)).
  { rewrite Hpre, length_append. simpl. lia. }
  unfold parseToken, hasLineTag. rewrite Ho, Hc'.
  destruct (Z.eqb_spec (Z.of_nat (String.length pre)) npos); [lia |].
  destruct (Z.eqb_spec (Z.of_nat (String.length p1)) npos); [lia |].
  simpl. unfold token at 1. rewrite substr_prefix.
  rewrite size_t_add_small by lia.
  rewrite (size_t_sub_wrap (Z.of_nat (String.length p1))) by lia.
  rewrite size_t_sub_small by lia.
  unfold token.
  replace (pre +:+ "(" +:+ post) with ((pre +:+ "(") +:+ post)
    by (now rewrite !append_assoc).
  rewrite (substr_suffix (pre +:+ "(") post); [reflexivity | |].
  - rewrite length_append. simpl. lia.
  - lia.
Qed.

Lemma parseToken_untagged (token : string) :
  contains token "(" = false \/ contains token ")" = false ->
  parseToken token = Some (token, EmptyString).
Proof.
  intros H. unfold parseToken. now rewrite hasLineTag_absent.
Qed.

End ParseTokenFacts.

(** ** Doubles *)

Section DoubleFacts.

(** The sign given to the rounding only ends up as the sign of its result. *)
Lemma SFabs_binary_round_aux (s s' : bool) (m e : Z) (l : location) :
  SFabs (binary_round_aux prec emax s m e l)
  = SFabs (binary_round_aux prec emax s' m e l).
Proof.
  unfold binary_round_aux.
  destruct (shr_fexp prec emax m e l) as [mrs1 e1].
  destruct (shr_fexp prec emax _ e1 loc_Exact) as [mrs2 e2].
  destruct (shr_m mrs2); [reflexivity | | reflexivity].
  destruct (e2 <=? emax - prec); reflexivity.
Qed.

Lemma SFabs_binary_normalize_opp (m e : Z) :
  SFabs (binary_normalize prec emax (- m) e false)
  = SFabs (binary_normalize prec emax m e false).
Proof.
  destruct m as [|p|p]; simpl; [reflexivity | |];
    unfold binary_round;
    destruct (shl_align p e _) as [mz ez];
    apply SFabs_binary_round_aux.
Qed.

Lemma SFabs_SFsub_swap (x y : spec_float) :
  SFabs (SFsub prec emax x y) = SFabs (SFsub prec emax y x).
Proof.
  destruct x as [sx | sx | | sx mx ex], y as [sy | sy | | sy my ey];
    try (destruct sx, sy; reflexivity);
    try (destruct sx; reflexivity);
    try (destruct sy; reflexivity);
    try reflexivity.
  unfold SFsub. rewrite (Z.min_comm ey ex).
  rewrite <- SFabs_binary_normalize_opp. f_equal. f_equal. lia.
Qed.

(** [std::abs(a - b)] and [std::abs(b - a)] are the same double. *)
Lemma abs_sub_swap (a b : float) : abs (a - b) = abs (b - a).
Proof.
  apply Prim2SF_inj. rewrite !FloatAxioms.abs_spec, !FloatAxioms.sub_spec. apply SFabs_SFsub_swap.
Qed.



End DoubleFacts.

(** ** calculateSegment *)

Section SegmentFacts.

Variable libm : Libm.

(** The guard on [find] keeps [operator[]] from inserting. *)
Lemma lines_index_present (lines : gmap string Line) (key : string)
      (line : Line) :
  lines !! key = Some line -> lines_index lines key = (line, lines).
Proof. intros H. unfold lines_index. now rewrite H. Qed.

Lemma calculateSegment_absent (lines : gmap string Line)
      (a b tag : string) :
  lines !! tag = None ->
  calculateSegment libm lines a b tag = (lineNotFound tag, lines).
Proof. intros H. unfold calculateSegment. now rewrite H. Qed.

Lemma calculateSegment_present (lines : gmap string Line)
      (a b tag : string) (line : Line) :
  lines !! tag = Some line ->
  calculateSegment libm lines a b tag =
  (match findStation line a, findStation line b with
   | Some s1, Some s2 =>
       render a b (trackDistance s1 s2) (straightDistance libm s1 s2)
              (timeMinutes line s1 s2)
   | _, _ => stationNotFound a b
   end, lines).
Proof.
  intros H. unfold calculateSegment.
  rewrite H, (lines_index_present _ _ _ H).
  destruct (findStation line a) as [s1 |], (findStation line b) as [s2 |];
    try reflexivity.
  cbv zeta. f_equal.
  unfold render, straightClause, straightDistance, timeMinutes, trackDistance.
  destruct (0.0 <? calcStraightDist libm (lat s1) (lon s1) (lat s2) (lon s2))%float;
    now rewrite !append_assoc, ?append_nil_l.
Qed.

Lemma calculateSegment_missing (lines : gmap string Line)
      (a b tag : string) (line : Line) :
  lines !! tag = Some line ->
  findStation line a = None \/ findStation line b = None ->
  calculateSegment libm lines a b tag = (stationNotFound a b, lines).
Proof.
  intros H Hs. rewrite (calculateSegment_present _ _ _ _ _ H).
  destruct Hs as [-> | ->]; [reflexivity |].
  now destruct (findStation line a).
Qed.

Lemma calculateSegment_found (lines : gmap string Line)
      (a b tag : string) (line : Line) (s1 s2 : Station) :
  lines !! tag = Some line ->
  findStation line a = Some s1 -> findStation line b = Some s2 ->
  calculateSegment libm lines a b tag =
  (render a b (trackDistance s1 s2) (straightDistance libm s1 s2)
          (timeMinutes line s1 s2), lines).
Proof.
  intros H H1 H2. rewrite (calculateSegment_present _ _ _ _ _ H).
  now rewrite H1, H2.
Qed.

Lemma calculateSegment_keeps (lines : gmap string Line) (a b tag : string) :
  snd (calculateSegment libm lines a b tag) = lines.
Proof.
  destruct (lines !! tag) as [line |] eqn:H.
  - now rewrite (calculateSegment_present _ _ _ _ _ H).
  - now rewrite calculateSegment_absent.
Qed.

(** What [loadData] leaves under the two keys it assigns. *)
Lemma loadData_arex (lines : gmap string Line) :
  loadData lines !! "arex" = Some arex.
Proof.
  unfold loadData. rewrite lookup_insert_ne by discriminate.
  apply lookup_insert_eq.
Qed.

Lemma loadData_line9 (lines : gmap string Line) :
  loadData lines !! "9" = Some line9.
Proof. unfold loadData. apply lookup_insert_eq. Qed.

Lemma loadData_other (lines : gmap string Line) (key : string) :
  key <> "arex"%string -> key <> "9"%string ->
  loadData lines !! key = lines !! key.
Proof.
  intros Ha H9. unfold loadData.
  rewrite !lookup_insert_ne by congruence. reflexivity.
Qed.

(** Past the sentinel test [calcStraightDist] is the haversine formula. *)
Lemma calcStraightDist_haversine (lat1 lon1 lat2 lon2 : float) :
  (lat1 =? 0.0)%float = false -> (lat2 =? 0.0)%float = false ->
  calcStraightDist libm lat1 lon1 lat2 lon2
  = haversine libm lat1 lon1 lat2 lon2.
Proof. intros H1 H2. unfold calcStraightDist. now rewrite H1, H2. Qed.

Lemma calcStraightDist_sentinel (lat1 lon1 lat2 lon2 : float) :
  (lat1 =? 0.0)%float = true \/ (lat2 =? 0.0)%float = true ->
  calcStraightDist libm lat1 lon1 lat2 lon2 = 0.0%float.
Proof.
  intros H. unfold calcStraightDist.
  destruct H as [-> | ->]; [reflexivity | now rewrite orb_true_r].
Qed.


Lemma straightClause_positive (x : float) :
  (0.0 <? x)%float = true ->
  straightClause x = ", 직선 " +:+ put_fixed1 x +:+ "km".
Proof. intros H. unfold straightClause. now rewrite H. Qed.


End SegmentFacts.

(** ** Formatting *)

Section FormatFacts.



End FormatFacts.

(** ** The loop of main *)

Section RouteFacts.

Variable libm : Libm.

Local Open Scope nat_scope.

Lemma parseToken_names (token : string) :
  parseToken token = Some (tokenName token, tokenLine token).
Proof.
  unfold tokenName, tokenLine.
  destruct (parseToken_some token) as (n & l & ->). reflexivity.
Qed.

Lemma concat_snoc (sep : string) (l : list string) (x : string) :
  String.concat sep (l ++ [x]) =
  match l with
  | [] => x
  | _ :: _ => String.concat sep l +:+ sep +:+ x
  end.
Proof.
  induction l as [|a l IH]; [reflexivity |].
  destruct l as [|b l]; [reflexivity |].
  change (String.concat sep ((a :: b :: l) ++ [x]))
    with (a +:+ sep +:+ String.concat sep ((b :: l) ++ [x])).
  rewrite IH.
  change (String.concat sep (a :: b :: l))
    with (a +:+ sep +:+ String.concat sep (b :: l)).
  now rewrite !append_assoc.
Qed.

Lemma segmentsOf_length (lines : gmap string Line) (tokens : list string)
      (k : nat) :
  List.length (segmentsOf libm lines tokens k) = k.
Proof. unfold segmentsOf. now rewrite length_map, length_seq. Qed.

Lemma segmentsOf_succ (lines : gmap string Line) (tokens : list string)
      (k : nat) :
  segmentsOf libm lines tokens (S k) =
  segmentsOf libm lines tokens k ++
  [segmentOf libm lines (nth k tokens EmptyString)
             (nth (k + 1) tokens EmptyString)].
Proof. unfold segmentsOf. now rewrite seq_S, map_app. Qed.

Lemma segmentsOf_nth (lines : gmap string Line) (tokens : list string)
      (k i : nat) :
  i < k ->
  nth i (segmentsOf libm lines tokens k) EmptyString =
  segmentOf libm lines (nth i tokens EmptyString)
            (nth (i + 1) tokens EmptyString).
Proof.
  intros H. unfold segmentsOf.
  rewrite (nth_indep _ EmptyString
             (segmentOf libm lines (nth 0 tokens EmptyString)
                        (nth (0 + 1) tokens EmptyString)))
    by now rewrite length_map, length_seq.
  rewrite (map_nth (fun i => segmentOf libm lines (nth i tokens EmptyString)
                                       (nth (i + 1) tokens EmptyString))).
  now rewrite seq_nth.
Qed.

(** One turn of the loop appends one leg and leaves the network alone. *)
Lemma route_step_spec (argv0 : string) (tokens : list string)
      (result : string) (lines : gmap string Line) (k : nat) :
  route_step libm (argv0 :: tokens) (Some (result, lines)) (S k) =
  Some ((if 1 <? S k then result +:+ ", " else result) +:+
        segmentOf libm lines (nth k tokens EmptyString)
                  (nth (k + 1) tokens EmptyString),
        lines).
Proof.
  unfold route_step.
  replace (S k + 1) with (S (k + 1)) by lia.
  cbn [nth]. rewrite !parseToken_names. unfold segmentOf.
  pose proof (calculateSegment_keeps libm lines
                (tokenName (nth k tokens EmptyString))
                (tokenName (nth (k + 1) tokens EmptyString))
                (tokenLine (nth k tokens EmptyString))) as Hk.
  destruct (calculateSegment libm lines _ _ _) as [seg lines'].
  simpl in Hk. subst lines'. reflexivity.
Qed.

(** After [k] turns the result is the first [k] legs joined by [", "]. *)
Lemma route_fold (argv0 : string) (tokens : list string)
      (lines : gmap string Line) (k : nat) :
  fold_left (route_step libm (argv0 :: tokens)) (seq 1 k)
            (Some (EmptyString, lines)) =
  Some (String.concat ", " (segmentsOf libm lines tokens k), lines).
Proof.
  induction k as [|k IH]; [reflexivity |].
  rewrite seq_S, fold_left_app, IH. cbn [fold_left].
  change (1 + k) with (S k). rewrite route_step_spec.
  rewrite segmentsOf_succ, concat_snoc.
  destruct k as [|k].
  - reflexivity.
  - rewrite segmentsOf_succ at 1.
    change (1 <? S (S k)) with true. cbv iota.
    destruct (segmentsOf libm lines tokens k ++ _) eqn:E.
    + now apply app_eq_nil in E as [_ E].
    + now rewrite <- E, <- segmentsOf_succ, !append_assoc.
Qed.

Lemma main_report (argv0 : string) (tokens : list string) :
  2 <= List.length tokens ->
  main libm (argv0 :: tokens) =
  Some (0%Z,
        String.concat ", "
          (segmentsOf libm (loadData ∅) tokens (List.length tokens - 1))
        +:+ endl).
Proof.
  intros H. unfold main.
  destruct (Nat.ltb_spec (List.length (argv0 :: tokens)) 3) as [Hlt | _];
    [simpl in Hlt; lia |].
  unfold route.
  replace (List.length (argv0 :: tokens) - 2) with (List.length tokens - 1)
    by (simpl; lia).
  now rewrite route_fold.
Qed.

End RouteFacts.

(** ** Rounding to int *)

Section RoundFacts.







End RoundFacts.

(** ** The tagged branch of parseToken *)

Section TaggedFacts.

Lemma contains_of_find (token : string) (c : ascii) :
  find token c <> npos -> contains token c = true.
Proof.
  intros H. destruct (contains token c) eqn:E; [reflexivity |].
  now rewrite find_absent in H.
Qed.

(** A token on the tagged branch splits at its first opening parenthesis,
    and the line tag begins what follows. *)
Lemma parseToken_tagged_split (token : string) :
  representable token -> hasLineTag token = true ->
  exists pre after l : string,
    token = pre +:+ "(" +:+ after /\ contains pre "(" = false /\
    begins_with l after /\ parseToken token = Some (pre, l).
Proof.
  intros Hrep Htag. unfold hasLineTag in Htag.
  apply andb_true_iff in Htag as [Ho Hc].
  apply negb_true_iff, Z.eqb_neq, contains_of_find in Ho, Hc.
  destruct (contains_split token "(" Ho) as (pre & after & -> & Hpre).
  change (pre +:+ String "(" after) with (pre +:+ "(" +:+ after) in *.
  exists pre, after.
  destruct (contains pre ")") eqn:Hpc.
  - exists after. repeat split; try assumption.
    + exists EmptyString. now rewrite append_nil_r.
    + now apply parseToken_reversed.
  - rewrite contains_append, Hpc in Hc. simpl in Hc.
    destruct (contains_split after ")" Hc) as (l & rest & -> & Hl).
    change (l +:+ String ")" rest) with (l +:+ ")" +:+ rest) in *.
    exists l. repeat split; try assumption.
    + now exists (")" +:+ rest)%string.
    + now apply parseToken_ordered.
Qed.

Lemma append_longer (s t : string) : s <> s +:+ "(" +:+ t.
Proof.
  intros H. apply (f_equal String.length) in H.
  rewrite !length_append in H. simpl in H. lia.
Qed.

End TaggedFacts.

(** * The claims *)

(** C1. For every token sequence of length [n >= 2] the route report is
    the concatenation, from left to right and joined by [", "], of exactly
    [n - 1] leg results; leg [i] is computed from the name parsed out of
    token [i], the name parsed out of token [i + 1] and the line tag parsed
    out of token [i]; the line tag [nextLine] of token [i + 1] takes no part
    in it.  ([main] prints the report followed by a line feed and returns
    0; the network is the one [loadData] builds.) *)
Theorem route_report_structure (libm : Libm) (argv0 : string)
        (tokens : list string) :
  (2 <= List.length tokens)%nat ->
  exists segs : list string,
    main libm (argv0 :: tokens)
      = Some (0, String.concat ", " segs +:+ endl) /\
    List.length segs = (List.length tokens - 1)%nat /\
    forall i : nat, (i < List.length tokens - 1)%nat ->
      exists currentName currentLine nextName nextLine : string,
        parseToken (nth i tokens EmptyString)
          = Some (currentName, currentLine) /\
        parseToken (nth (i + 1) tokens EmptyString)
          = Some (nextName, nextLine) /\
        nth i segs EmptyString
          = fst (calculateSegment libm (loadData ∅)
                   currentName nextName currentLine).
Proof.
  intros Hn.
  exists (segmentsOf libm (loadData ∅) tokens (List.length tokens - 1)).
  split; [now apply main_report |].
  split; [apply segmentsOf_length |].
  intros i Hi.
  exists (tokenName (nth i tokens EmptyString)),
         (tokenLine (nth i tokens EmptyString)),
         (tokenName (nth (i + 1) tokens EmptyString)),
         (tokenLine (nth (i + 1) tokens EmptyString)).
  rewrite !parseToken_names. repeat split.
  now rewrite segmentsOf_nth.
Qed.

(** The itinerary [A(l1) B(l2) C] gives two legs, on the lines [l1] and
    [l2]; neither is a line of the built-in network. *)
Lemma route_report_structure_witness :
  exists segs : list string,
    main SampleLibm.libm ["a.out"; "A(l1)"; "B(l2)"; "C"]%string
      = Some (0, String.concat ", " segs +:+ endl) /\
    List.length segs = 2%nat /\
    nth 0 segs EmptyString = "Error: 존재하지 않는 노선(l1)"%string /\
    nth 1 segs EmptyString = "Error: 존재하지 않는 노선(l2)"%string.
Proof.
  destruct (route_report_structure SampleLibm.libm "a.out"
              ["A(l1)"; "B(l2)"; "C"]%string) as (segs & Hmain & Hlen & Hseg).
  - simpl. lia.
  - exists segs. split; [exact Hmain |]. split; [exact Hlen |].
    split.
    + destruct (Hseg 0%nat) as (cn & cl & nn & nl & Hc & Hx & ->);
        [simpl; lia |].
      vm_compute in Hc, Hx.
      injection Hc as <- <-. injection Hx as <- <-.
      vm_compute. reflexivity.
    + destruct (Hseg 1%nat) as (cn & cl & nn & nl & Hc & Hx & ->);
        [simpl; lia |].
      vm_compute in Hc, Hx.
      injection Hc as <- <-. injection Hx as <- <-.
      vm_compute. reflexivity.
Defined.

(** The reading of C2 "as stated", on a token whose closing parenthesis
    comes first: the line tag the code returns is what follows the opening
    parenthesis, not the text between the two parentheses. *)
Lemma parseToken_between_counterexample :
  contains "a)b(c" "(" = true /\ contains "a)b(c" ")" = true /\
  parseToken "a)b(c" = Some ("a)b", "c")%string /\
  between "a)b(c" (find "a)b(c" "(") (find "a)b(c" ")") = "b"%string /\
  "c"%string <> "b"%string.
Proof. repeat split; try reflexivity. discriminate. Qed.

(** C2 (amended).  For every token: the name is the text before the first
    ['(']; the line tag is the text between the first ['('] and the first
    [')'] when the first ['('] comes first, and all the text after the first
    ['('] when the first [')'] comes before it; when one of the two
    characters is absent the name is the whole token and the line tag is
    empty.  In particular ["Station(line9)"] gives ["Station"] and
    ["line9"], and ["Station"] gives ["Station"] and [""]. *)
Theorem parseToken_cases :
  (forall token : string, representable token ->
     (forall n l rest : string,
        token = n +:+ "(" +:+ l +:+ ")" +:+ rest ->
        contains n "(" = false -> contains n ")" = false ->
        contains l ")" = false ->
        parseToken token = Some (n, l)) /\
     (forall pre post : string,
        token = pre +:+ "(" +:+ post ->
        contains pre "(" = false -> contains pre ")" = true ->
        parseToken token = Some (pre, post)) /\
     (contains token "(" = false \/ contains token ")" = false ->
      parseToken token = Some (token, EmptyString))) /\
  parseToken "Station(line9)" = Some ("Station", "line9")%string /\
  parseToken "Station" = Some ("Station", "")%string.
Proof.
  split; [| split; reflexivity].
  intros token Hrep. repeat split.
  - intros n l rest -> Hno Hnc Hlc. now apply parseToken_ordered.
  - intros pre post -> Hno Hc. now apply parseToken_reversed.
  - apply parseToken_untagged.
Qed.

Lemma parseToken_cases_witness :
  parseToken "계양역(arex)" = Some ("계양역", "arex")%string /\
  parseToken ")x(9" = Some (")x", "9")%string /\
  parseToken "노량진역" = Some ("노량진역", "")%string.
Proof.
  split; [| split].
  - apply (proj1 (proj1 parseToken_cases "계양역(arex)"%string
                    ltac:(vm_compute; reflexivity))
             "계양역"%string "arex"%string ""%string); reflexivity.
  - apply (proj1 (proj2 (proj1 parseToken_cases ")x(9"%string
                           ltac:(vm_compute; reflexivity)))
             ")x"%string "9"%string); reflexivity.
  - apply (proj2 (proj2 (proj1 parseToken_cases "노량진역"%string
                           ltac:(vm_compute; reflexivity)))).
    left. reflexivity.
Defined.

(** C3. [calculateSegment] answers an error text, never a fatal condition:
    when the line tag is not a key of the network, the text names the
    missing line; when the line exists and one of the two station names
    has no match on it, the text is the station error.  [main] puts that
    text in the report at the place of the leg and goes on: the report
    still has all [n - 1] legs, each computed on the unchanged network, and
    the exit status is 0. *)
Theorem errors_are_reported (libm : Libm) :
  (forall (lines : gmap string Line) (a b tag : string),
     lines !! tag = None ->
     calculateSegment libm lines a b tag
     = ("Error: 존재하지 않는 노선(" +:+ tag +:+ ")", lines)) /\
  (forall (lines : gmap string Line) (a b tag : string) (line : Line),
     lines !! tag = Some line ->
     findStation line a = None \/ findStation line b = None ->
     calculateSegment libm lines a b tag
     = ("Error: 역을 찾을 수 없음 (" +:+ a +:+ " or " +:+ b +:+ ")", lines)) /\
  (forall (argv0 : string) (tokens : list string),
     (2 <= List.length tokens)%nat ->
     let segs :=
       segmentsOf libm (loadData ∅) tokens (List.length tokens - 1) in
     main libm (argv0 :: tokens)
       = Some (0, String.concat ", " segs +:+ endl) /\
     List.length segs = (List.length tokens - 1)%nat /\
     forall i : nat, (i < List.length tokens - 1)%nat ->
       let current := nth i tokens EmptyString in
       let next := nth (i + 1) tokens EmptyString in
       (loadData ∅ !! tokenLine current = None ->
        nth i segs EmptyString
        = "Error: 존재하지 않는 노선(" +:+ tokenLine current +:+ ")") /\
       (forall line : Line,
          loadData ∅ !! tokenLine current = Some line ->
          findStation line (tokenName current) = None \/
          findStation line (tokenName next) = None ->
          nth i segs EmptyString
          = "Error: 역을 찾을 수 없음 (" +:+ tokenName current +:+ " or "
            +:+ tokenName next +:+ ")")).
Proof.
  split; [| split].
  - intros lines a b tag H. now apply calculateSegment_absent.
  - intros lines a b tag line H Hs. now apply calculateSegment_missing with line.
  - intros argv0 tokens Hn segs.
    split; [now apply main_report |].
    split; [apply segmentsOf_length |].
    intros i Hi current next. unfold segs.
    rewrite segmentsOf_nth by assumption. fold current next.
    unfold segmentOf. split.
    + intros H. now rewrite calculateSegment_absent.
    + intros line H Hs. now rewrite (calculateSegment_missing _ _ _ _ _ line).
Qed.

(** An unknown line in the first leg does not stop the second leg. *)
Lemma errors_are_reported_witness :
  main SampleLibm.libm ["a.out"; "계양역(7)"; "김포공항역(9)"; "노량진역"]%string
  = Some (0, "Error: 존재하지 않는 노선(7), 18.4km(23분, 김포공항역-노량진역, 직선 13.5km)"
             +:+ endl) /\
  calculateSegment SampleLibm.libm (loadData ∅) "계양역" "개화" "arex"
  = ("Error: 역을 찾을 수 없음 (계양역 or 개화)"%string, loadData ∅).
Proof.
  destruct (errors_are_reported SampleLibm.libm) as (_ & Hstation & Hmain).
  split.
  - destruct (Hmain "a.out"%string
                ["계양역(7)"; "김포공항역(9)"; "노량진역"]%string
                ltac:(simpl; lia)) as (-> & _).
    vm_compute. reflexivity.
  - apply (Hstation (loadData ∅) "계양역"%string "개화"%string "arex"%string arex).
    + apply loadData_arex.
    + right. reflexivity.
Defined.




(** C5. For two stations [sa] and [sb] resolved on the same line the track
    distance is [abs (sa.distFromStart - sb.distFromStart)]; it is the same
    double in both directions, and the leg from [a] to [b] and the leg from
    [b] to [a] both begin with that one distance. *)
Theorem track_distance_symmetric (libm : Libm) (lines : gmap string Line)
        (a b tag : string) (line : Line) (sa sb : Station) :
  lines !! tag = Some line ->
  findStation line a = Some sa -> findStation line b = Some sb ->
  trackDistance sa sb = abs (distFromStart sa - distFromStart sb) /\
  trackDistance sa sb = trackDistance sb sa /\
  (exists rest : string,
     fst (calculateSegment libm lines a b tag)
     = put_fixed1 (trackDistance sa sb) +:+ "km(" +:+ rest) /\
  (exists rest : string,
     fst (calculateSegment libm lines b a tag)
     = put_fixed1 (trackDistance sa sb) +:+ "km(" +:+ rest).
Proof.
  intros H Ha Hb.
  assert (Hswap : trackDistance sa sb = trackDistance sb sa)
    by apply abs_sub_swap.
  split; [reflexivity |]. split; [exact Hswap |]. split.
  - rewrite (calculateSegment_found _ _ _ _ _ _ _ _ H Ha Hb).
    eexists. unfold render. simpl fst. reflexivity.
  - rewrite (calculateSegment_found _ _ _ _ _ _ _ _ H Hb Ha).
    rewrite Hswap. eexists. unfold render. simpl fst. reflexivity.
Qed.

Lemma track_distance_symmetric_witness :
  trackDistance (mkStation "김포공항역" 3.6 37.562 126.801)
                (mkStation "노량진역" 22.0 37.514 126.942)
  = trackDistance (mkStation "노량진역" 22.0 37.514 126.942)
                  (mkStation "김포공항역" 3.6 37.562 126.801).
Proof.
  exact (proj1 (proj2 (track_distance_symmetric SampleLibm.libm (loadData ∅)
                         "김포공항역" "노량진역" "9" line9
                         (mkStation "김포공항역" 3.6 37.562 126.801)
                         (mkStation "노량진역" 22.0 37.514 126.942)
                         (loadData_line9 ∅) eq_refl eq_refl))).
Defined.

(** C6. When one of the two latitudes compares equal to 0,
    [calcStraightDist] returns 0.0 whatever the C library computes;
    hence a leg with an endpoint that has no coordinates has the
    straight-line distance 0 and is rendered without the straight-line
    clause. *)
Theorem sentinel_latitude (libm : Libm) :
  (forall lat1 lon1 lat2 lon2 : float,
     (lat1 =? 0.0)%float = true \/ (lat2 =? 0.0)%float = true ->
     calcStraightDist libm lat1 lon1 lat2 lon2 = 0.0%float) /\
  (forall (lines : gmap string Line) (a b tag : string) (line : Line)
          (s1 s2 : Station),
     lines !! tag = Some line ->
     findStation line a = Some s1 -> findStation line b = Some s2 ->
     (lat s1 =? 0.0)%float = true \/ (lat s2 =? 0.0)%float = true ->
     straightDistance libm s1 s2 = 0.0%float /\
     fst (calculateSegment libm lines a b tag)
     = put_fixed1 (trackDistance s1 s2) +:+ "km("
       +:+ put_int (int_of_double (round (timeMinutes line s1 s2)))
       +:+ "분, " +:+ a +:+ "-" +:+ b +:+ ")").
Proof.
  split.
  - apply calcStraightDist_sentinel.
  - intros lines a b tag line s1 s2 H H1 H2 Hlat.
    assert (Hz : straightDistance libm s1 s2 = 0.0%float)
      by now apply calcStraightDist_sentinel.
    split; [exact Hz |].
    rewrite (calculateSegment_found _ _ _ _ _ _ _ _ H H1 H2).
    unfold render. rewrite Hz. reflexivity.
Qed.

(** 개화 has no coordinates; 김포공항역 has. *)
Lemma sentinel_latitude_witness :
  fst (calculateSegment SampleLibm.libm (loadData ∅) "개화" "김포공항역" "9")
  = "3.6km(5분, 개화-김포공항역)"%string.
Proof.
  destruct (proj2 (sentinel_latitude SampleLibm.libm) (loadData ∅)
              "개화" "김포공항역" "9" line9
              (mkStation "개화" 0.0 0.0 0.0)
              (mkStation "김포공항역" 3.6 37.562 126.801)
              (loadData_line9 ∅) eq_refl eq_refl (or_introl eq_refl))
    as (_ & ->).
  vm_compute. reflexivity.
Defined.

(** C7. On the built-in network the line [arex] runs at 60 km/h and has
    계양역 at 0.0 km, (37.571, 126.736) and 마곡나루역 at 9.5 km,
    (37.567, 126.829).  The leg between them succeeds: it reports 9.5 km
    and 10 minutes, and its straight-line clause is the one of the haversine
    value [h] of the two coordinate pairs (no latitude is the sentinel), so
    that the clause is written with [h] as soon as the C library makes
    [h] positive. *)
Theorem arex_example (libm : Libm) :
  let h := haversine libm 37.571 126.736 37.567 126.829 in
  let leg :=
    fst (calculateSegment libm (loadData ∅) "계양역" "마곡나루역" "arex") in
  loadData ∅ !! "arex" = Some arex /\
  avgSpeed arex = 60.0%float /\
  findStation arex "계양역" = Some (mkStation "계양역" 0.0 37.571 126.736) /\
  findStation arex "마곡나루역"
    = Some (mkStation "마곡나루역" 9.5 37.567 126.829) /\
  abs (0.0 - 9.5) = 9.5%float /\
  round (abs (0.0 - 9.5) / 60.0 * 60.0) = 10.0%float /\
  calcStraightDist libm 37.571 126.736 37.567 126.829 = h /\
  leg = "9.5km(10분, 계양역-마곡나루역" +:+ straightClause h +:+ ")" /\
  ((0.0 <? h)%float = true ->
   leg = "9.5km(10분, 계양역-마곡나루역, 직선 " +:+ put_fixed1 h +:+ "km)").
Proof.
  intros h leg.
  assert (Hleg : leg = "9.5km(10분, 계양역-마곡나루역"
                       +:+ straightClause h +:+ ")").
  { unfold leg.
    rewrite (calculateSegment_found libm (loadData ∅)
               "계양역" "마곡나루역" "arex" arex
               (mkStation "계양역" 0.0 37.571 126.736)
               (mkStation "마곡나루역" 9.5 37.567 126.829)
               (loadData_arex ∅) eq_refl eq_refl).
    reflexivity. }
  split; [apply loadData_arex |].
  do 5 (split; [reflexivity |]).
  split; [now apply calcStraightDist_haversine |].
  split; [exact Hleg |].
  intros Hpos. rewrite Hleg, (straightClause_positive _ Hpos).
  now rewrite !append_assoc.
Qed.

Lemma arex_example_witness :
  fst (calculateSegment SampleLibm.libm (loadData ∅)
         "계양역" "마곡나루역" "arex")
  = "9.5km(10분, 계양역-마곡나루역, 직선 8.2km)"%string.
Proof.
  rewrite (proj2 (proj2 (proj2 (proj2 (proj2 (proj2 (proj2 (proj2
             (arex_example SampleLibm.libm)))))))) eq_refl).
  vm_compute. reflexivity.
Defined.

(** The reading of C8 "as stated": on the built-in network the query
    (계양역, 개화) fails on [arex] because the end name is unknown there, and
    on [9] because the start name is unknown there; the two error texts are
    the same, so the text does not tell which name failed. *)
Lemma stationNotFound_counterexample :
  (findStation arex "계양역" <> None /\ findStation arex "개화" = None) /\
  (findStation line9 "계양역" = None /\ findStation line9 "개화" <> None) /\
  fst (calculateSegment SampleLibm.libm (loadData ∅) "계양역" "개화" "arex")
  = fst (calculateSegment SampleLibm.libm (loadData ∅) "계양역" "개화" "9").
Proof.
  split; [split; [discriminate | reflexivity] |].
  split; [split; [reflexivity | discriminate] |].
  rewrite (calculateSegment_present _ _ _ _ _ _ (loadData_arex ∅)).
  rewrite (calculateSegment_present _ _ _ _ _ _ (loadData_line9 ∅)).
  reflexivity.
Qed.

(** C8 (amended).  For a query on an existing line where at least one of
    the two station names is absent from the line, the error text quotes
    both names of the query, the start name and then the end name joined by
    [" or "]; it is the same text whichever of the two names failed, on
    whichever line. *)
Theorem stationNotFound_names_both (libm : Libm) (lines : gmap string Line)
        (a b tag : string) (line : Line) :
  lines !! tag = Some line ->
  findStation line a = None \/ findStation line b = None ->
  fst (calculateSegment libm lines a b tag)
  = "Error: 역을 찾을 수 없음 (" +:+ a +:+ " or " +:+ b +:+ ")" /\
  forall (lines' : gmap string Line) (tag' : string) (line' : Line),
    lines' !! tag' = Some line' ->
    findStation line' a = None \/ findStation line' b = None ->
    fst (calculateSegment libm lines' a b tag')
    = fst (calculateSegment libm lines a b tag).
Proof.
  intros H Hs. rewrite (calculateSegment_missing _ _ _ _ _ _ H Hs).
  split; [reflexivity |].
  intros lines' tag' line' H' Hs'.
  now rewrite (calculateSegment_missing _ _ _ _ _ _ H' Hs').
Qed.

Lemma stationNotFound_names_both_witness :
  fst (calculateSegment SampleLibm.libm (loadData ∅) "계양역" "개화" "9")
  = "Error: 역을 찾을 수 없음 (계양역 or 개화)"%string.
Proof.
  exact (proj1 (stationNotFound_names_both SampleLibm.libm (loadData ∅)
                  "계양역" "개화" "9" line9
                  (loadData_line9 ∅) (or_introl eq_refl))).
Defined.

(** C9. [parseToken] is total: every token, also one with unmatched or
    reversed parentheses, gives a pair (name, line).  The result without a
    line tag, the whole token and an empty line, is returned only when
    ['('] or [')'] is absent from the token; a token that contains both is
    taken as tagged whatever their order: the name is the text before the
    first ['('] and the line begins the text after it. *)
Theorem parseToken_total :
  (forall token : string,
     exists n l : string, parseToken token = Some (n, l)) /\
  (forall token : string,
     hasLineTag token = false ->
     parseToken token = Some (token, EmptyString)) /\
  (forall token : string, representable token ->
     (hasLineTag token = false ->
      contains token "(" = false \/ contains token ")" = false) /\
     (contains token "(" = true -> contains token ")" = true ->
      hasLineTag token = true)) /\
  (forall token : string, representable token ->
     (parseToken token = Some (token, EmptyString) <->
      contains token "(" = false \/ contains token ")" = false)) /\
  (forall token : string, representable token ->
     contains token "(" = true -> contains token ")" = true ->
     exists pre after l : string,
       token = pre +:+ "(" +:+ after /\ contains pre "(" = false /\
       begins_with l after /\ parseToken token = Some (pre, l)).
Proof.
  split; [apply parseToken_some |]. split.
  { intros token H. unfold parseToken. now rewrite H. }
  split.
  { intros token Hrep. split.
    - now apply hasLineTag_false_absent.
    - now apply hasLineTag_present. }
  split.
  - intros token Hrep. split; [| apply parseToken_untagged].
    intros Hres. apply hasLineTag_false_absent; [assumption |].
    destruct (hasLineTag token) eqn:Htag; [| reflexivity].
    destruct (parseToken_tagged_split token Hrep Htag)
      as (pre & after & l & Htok & _ & _ & Hparse).
    rewrite Hparse in Hres. injection Hres as Hpre _.
    rewrite Htok in Hpre. now apply append_longer in Hpre.
  - intros token Hrep Ho Hc. apply parseToken_tagged_split; [assumption |].
    now apply hasLineTag_present.
Qed.

Lemma parseToken_total_witness :
  hasLineTag "a)b(c" = true /\
  parseToken "a)b(c" <> Some ("a)b(c", "")%string /\
  (exists pre after l : string,
     "a)b(c"%string = pre +:+ "(" +:+ after /\ contains pre "(" = false /\
     begins_with l after /\ parseToken "a)b(c" = Some (pre, l)).
Proof.
  assert (Hrep : representable "a)b(c") by (vm_compute; reflexivity).
  destruct parseToken_total as (_ & _ & Hbranch & Hiff & Hboth).
  split; [| split].
  - apply (proj2 (Hbranch "a)b(c"%string Hrep)); reflexivity.
  - intros H. apply (proj1 (Hiff "a)b(c"%string Hrep)) in H.
    destruct H; discriminate.
  - apply (Hboth "a)b(c"%string Hrep); reflexivity.
Defined.

(** C10. [calculateSegment] is a pure query: whatever its arguments, also
    an unknown line or unknown station names, the map it leaves behind is
    the map it was given; no line is inserted, removed or changed, and
    every line keeps its stations and its average speed. *)
Theorem calculateSegment_read_only (libm : Libm) (lines : gmap string Line)
        (a b tag : string) :
  let lines' := snd (calculateSegment libm lines a b tag) in
  lines' = lines /\
  (forall id : string, lines' !! id = lines !! id) /\
  (forall (id : string) (line : Line),
     lines !! id = Some line ->
     exists line' : Line,
       lines' !! id = Some line' /\
       stations line' = stations line /\ avgSpeed line' = avgSpeed line) /\
  (forall id : string, lines !! id = None -> lines' !! id = None).
Proof.
  intros lines'. unfold lines'. rewrite calculateSegment_keeps.
  split; [reflexivity |]. split; [reflexivity |]. split.
  - intros id line H. exists line. now rewrite H.
  - intros id H. exact H.
Qed.

(** * Further properties *)

(** ** Signs in binary64 arithmetic *)

Section SignFacts.

Lemma SFopp_involutive (x : spec_float) : SFopp (SFopp x) = x.
Proof. destruct x as [s | s | | s m e]; simpl; now rewrite ?negb_involutive. Qed.

Lemma opp_involutive (x : float) : (- - x)%float = x.
Proof.
  apply Prim2SF_inj. rewrite !FloatAxioms.opp_spec. apply SFopp_involutive.
Qed.

(** Rounding is symmetric: flipping the sign given to it flips the result. *)
Lemma binary_round_aux_negb (s : bool) (m e : Z) (l : location) :
  binary_round_aux prec emax (negb s) m e l
  = SFopp (binary_round_aux prec emax s m e l).
Proof.
  unfold binary_round_aux.
  destruct (shr_fexp prec emax m e l) as [mrs1 e1].
  destruct (shr_fexp prec emax _ e1 loc_Exact) as [mrs2 e2].
  destruct (shr_m mrs2); [reflexivity | | reflexivity].
  destruct (e2 <=? emax - prec); reflexivity.
Qed.

Lemma xorb_negb_l (a b : bool) : xorb (negb a) b = negb (xorb a b).
Proof. now destruct a, b. Qed.

Lemma SFmul_opp_l (x y : spec_float) :
  SFmul prec emax (SFopp x) y = SFopp (SFmul prec emax x y).
Proof.
  destruct x as [sx | sx | | sx mx ex], y as [sy | sy | | sy my ey];
    simpl; rewrite ?xorb_negb_l; try reflexivity.
  apply binary_round_aux_negb.
Qed.

Lemma SFmul_comm (x y : spec_float) :
  SFmul prec emax x y = SFmul prec emax y x.
Proof.
  destruct x as [sx | sx | | sx mx ex], y as [sy | sy | | sy my ey];
    simpl; rewrite ?(xorb_comm sy sx); try reflexivity.
  now rewrite (Pos.mul_comm my mx), (Z.add_comm ey ex).
Qed.

Lemma SFdiv_opp_l (x y : spec_float) :
  SFdiv prec emax (SFopp x) y = SFopp (SFdiv prec emax x y).
Proof.
  destruct x as [sx | sx | | sx mx ex], y as [sy | sy | | sy my ey];
    simpl; rewrite ?xorb_negb_l; try reflexivity.
  destruct (SFdiv_core_binary prec emax (Z.pos mx) ex (Z.pos my) ey)
    as [[mz ez] lz].
  apply binary_round_aux_negb.
Qed.

Lemma binary_normalize_opp (m e : Z) :
  m <> 0 ->
  binary_normalize prec emax (- m) e false
  = SFopp (binary_normalize prec emax m e false).
Proof.
  intros Hm. destruct m as [|p|p]; [now elim Hm | |]; simpl;
    unfold binary_round; destruct (shl_align p e _) as [mz ez].
  - apply (binary_round_aux_negb false).
  - rewrite (binary_round_aux_negb false). now rewrite SFopp_involutive.
Qed.

(** [a - b] is the opposite of [b - a], except that both are [+0] when the
    difference is an exact zero. *)
Lemma SFsub_swap (x y : spec_float) :
  SFsub prec emax x y = SFopp (SFsub prec emax y x) \/
  (SFsub prec emax x y = S754_zero false /\
   SFsub prec emax y x = S754_zero false).
Proof.
  destruct x as [sx | sx | | sx mx ex], y as [sy | sy | | sy my ey];
    try (left; reflexivity);
    try (destruct sx, sy; simpl; auto; fail);
    try (left; simpl; now rewrite ?negb_involutive).
  unfold SFsub. rewrite (Z.min_comm ey ex).
  set (X := cond_Zopp sx (Z.pos (fst (shl_align mx ex (Z.min ex ey))))).
  set (Y := cond_Zopp sy (Z.pos (fst (shl_align my ey (Z.min ex ey))))).
  destruct (Z.eq_dec (X - Y) 0) as [E | NE].
  - right. replace (Y - X) with 0 by lia. rewrite E. now split.
  - left. replace (X - Y) with (- (Y - X)) by lia.
    apply binary_normalize_opp. lia.
Qed.

Lemma mul_opp_l (x y : float) : (- x * y)%float = (- (x * y))%float.
Proof.
  apply Prim2SF_inj.
  rewrite FloatAxioms.mul_spec, !FloatAxioms.opp_spec, FloatAxioms.mul_spec.
  apply SFmul_opp_l.
Qed.

Lemma mul_comm (x y : float) : (x * y)%float = (y * x)%float.
Proof.
  apply Prim2SF_inj. rewrite !FloatAxioms.mul_spec. apply SFmul_comm.
Qed.

Lemma mul_opp_r (x y : float) : (x * - y)%float = (- (x * y))%float.
Proof. now rewrite (mul_comm x), mul_opp_l, (mul_comm y). Qed.

Lemma div_opp_l (x y : float) : (- x / y)%float = (- (x / y))%float.
Proof.
  apply Prim2SF_inj.
  rewrite FloatAxioms.div_spec, !FloatAxioms.opp_spec, FloatAxioms.div_spec.
  apply SFdiv_opp_l.
Qed.

Lemma sub_swap (a b : float) :
  (a - b)%float = (- (b - a))%float \/
  ((a - b)%float = 0.0%float /\ (b - a)%float = 0.0%float).
Proof.
  destruct (SFsub_swap (Prim2SF a) (Prim2SF b)) as [H | [H1 H2]].
  - left. apply Prim2SF_inj.
    now rewrite FloatAxioms.opp_spec, !FloatAxioms.sub_spec.
  - right. split; apply Prim2SF_inj; now rewrite FloatAxioms.sub_spec.
Qed.

Lemma toRad_opp (x : float) : toRad (- x) = (- toRad x)%float.
Proof. unfold toRad. now rewrite mul_opp_l, div_opp_l. Qed.

End SignFacts.

(** ** Symmetry of the great-circle distance *)

Section SymmetryFacts.

Variable libm : Libm.
Hypothesis sin_odd : odd_sin libm.

Lemma sin_pair_opp (c u : float) :
  (c * sin libm (- u) * sin libm (- u))%float
  = (c * sin libm u * sin libm u)%float.
Proof.
  rewrite !sin_odd, !mul_opp_r, mul_opp_l. apply opp_involutive.
Qed.

Lemma sin_square_opp (u : float) :
  (sin libm (- u) * sin libm (- u))%float = (sin libm u * sin libm u)%float.
Proof.
  rewrite !sin_odd, mul_opp_r, mul_opp_l. apply opp_involutive.
Qed.

(** The half-angle of a difference, up to its sign. *)
Lemma half_angle_swap (p q : float) :
  (toRad (p - q) / 2.0)%float = (- (toRad (q - p) / 2.0))%float \/
  (toRad (p - q) / 2.0)%float = (toRad (q - p) / 2.0)%float.
Proof.
  destruct (sub_swap p q) as [-> | [-> ->]]; [left | now right].
  now rewrite toRad_opp, div_opp_l.
Qed.

Lemma calcStraightDist_swap (lat1 lon1 lat2 lon2 : float) :
  calcStraightDist libm lat1 lon1 lat2 lon2
  = calcStraightDist libm lat2 lon2 lat1 lon1.
Proof.
  unfold calcStraightDist. rewrite (orb_comm (lat1 =? 0.0)%float).
  destruct ((lat2 =? 0.0) || (lat1 =? 0.0))%float; [reflexivity |].
  cbv zeta.
  assert (Hlat : (sin libm (toRad (lat2 - lat1) / 2.0)
                  * sin libm (toRad (lat2 - lat1) / 2.0))%float
                 = (sin libm (toRad (lat1 - lat2) / 2.0)
                    * sin libm (toRad (lat1 - lat2) / 2.0))%float).
  { destruct (half_angle_swap lat2 lat1) as [-> | ->];
      [apply sin_square_opp | reflexivity]. }
  assert (Hlon : forall c : float,
             (c * sin libm (toRad (lon2 - lon1) / 2.0)
              * sin libm (toRad (lon2 - lon1) / 2.0))%float
             = (c * sin libm (toRad (lon1 - lon2) / 2.0)
                * sin libm (toRad (lon1 - lon2) / 2.0))%float).
  { intros c. destruct (half_angle_swap lon2 lon1) as [-> | ->];
      [apply sin_pair_opp | reflexivity]. }
  rewrite Hlat, Hlon.
  now rewrite (mul_comm (cos libm (toRad lat1))).
Qed.

End SymmetryFacts.

Lemma SampleLibm_odd : odd_sin SampleLibm.libm.
Proof.
  intros x. unfold SampleLibm.libm, SampleLibm.sin. cbn [sin]. cbv zeta.
  assert (E : (- x * - x)%float = (x * x)%float)
    by (rewrite mul_opp_l, mul_opp_r; apply opp_involutive).
  rewrite E. apply mul_opp_l.
Qed.

(** ** Zero distances *)

Section ZeroFacts.

Lemma Prim2SF_zero : Prim2SF 0.0 = S754_zero false.
Proof. reflexivity. Qed.

(** A number minus itself is [+0]. *)
Lemma sub_diag (d : float) : is_number d = true -> (d - d)%float = 0.0%float.
Proof.
  intros H. apply Prim2SF_inj. rewrite FloatAxioms.sub_spec, Prim2SF_zero.
  unfold is_number in H.
  destruct (Prim2SF d) as [s | s | | s m e]; try discriminate.
  - now destruct s.
  - unfold SF64sub, SFsub. cbv zeta. now rewrite Z.sub_diag.
Qed.

Lemma zero_div_finite (v : float) :
  is_finite v = true -> exists s, Prim2SF (0.0 / v) = S754_zero s.
Proof.
  intros H. rewrite FloatAxioms.div_spec, Prim2SF_zero. unfold is_finite in H.
  destruct (Prim2SF v) as [s | s | | s m e]; try discriminate.
  simpl. eauto.
Qed.

Lemma zero_mul_number (x y : float) (s : bool) :
  Prim2SF x = S754_zero s -> is_number y = true ->
  exists s', Prim2SF (x * y) = S754_zero s'.
Proof.
  intros Hx Hy. rewrite FloatAxioms.mul_spec, Hx. unfold is_number in Hy.
  destruct (Prim2SF y) as [t | t | | t m e]; try discriminate; simpl; eauto.
Qed.

Lemma number_mul_zero (x y : float) (s : bool) :
  is_number x = true -> Prim2SF y = S754_zero s ->
  exists s', Prim2SF (x * y) = S754_zero s'.
Proof. intros Hx Hy. rewrite mul_comm. now apply zero_mul_number with s. Qed.

Lemma zero_add_zero (y : float) (s : bool) :
  Prim2SF y = S754_zero s -> (0.0 + y)%float = 0.0%float.
Proof.
  intros Hy. apply Prim2SF_inj.
  rewrite FloatAxioms.add_spec, Hy, Prim2SF_zero. now destruct s.
Qed.

Lemma round_zero (x : float) (s : bool) :
  Prim2SF x = S754_zero s -> int_of_double (round x) = 0.
Proof.
  intros H. unfold round. rewrite H. unfold int_of_double. now rewrite H.
Qed.

(** No distance at any finite speed takes 0 minutes. *)
Lemma minutes_of_zero (v : float) :
  is_finite v = true -> int_of_double (round (0.0 / v * 60.0)) = 0.
Proof.
  intros H. destruct (zero_div_finite v H) as (s & Hs).
  destruct (zero_mul_number _ 60.0 s Hs eq_refl) as (s' & Hs').
  now apply round_zero with s'.
Qed.

End ZeroFacts.

(** ** Stations of a line *)

Section StationFacts.

Lemma findStation_in_sound (l : list Station) (n : string) (s : Station) :
  findStation_in l n = Some s ->
  name s = n /\
  exists pre post : list Station,
    l = pre ++ s :: post /\ forall t, In t pre -> name t <> n.
Proof.
  induction l as [|x l IH]; simpl; [discriminate |].
  destruct (String.eqb_spec (name x) n) as [E | NE].
  - intros [= <-]. split; [exact E |].
    exists [], l. split; [reflexivity | intros t []].
  - intros H. destruct (IH H) as (Hn & pre & post & -> & Hpre).
    split; [exact Hn |]. exists (x :: pre), post. split; [reflexivity |].
    intros t [<- | Ht]; [exact NE | now apply Hpre].
Qed.

Lemma findStation_in_none (l : list Station) (n : string) :
  findStation_in l n = None <-> forall t, In t l -> name t <> n.
Proof.
  induction l as [|x l IH]; simpl.
  - split; [intros _ t [] | reflexivity].
  - destruct (String.eqb_spec (name x) n) as [E | NE].
    + split; [discriminate | intros H; elim (H x); auto].
    + rewrite IH. split.
      * intros H t [<- | Ht]; [exact NE | now apply H].
      * intros H t Ht. apply H. now right.
Qed.

Lemma findStation_in_app (l1 l2 : list Station) (n : string) :
  findStation_in (l1 ++ l2) n =
  match findStation_in l1 n with
  | Some s => Some s
  | None => findStation_in l2 n
  end.
Proof.
  induction l1 as [|x l1 IH]; simpl; [reflexivity |].
  now destruct (String.eqb (name x) n).
Qed.

End StationFacts.

(** ** Tokens and legs *)

Section TokenFacts.

Lemma segmentsOf_app (libm : Libm) (lines : gmap string Line)
      (tokens : list string) (t : string) (k : nat) :
  (k < List.length tokens)%nat ->
  segmentsOf libm lines (tokens ++ [t]) k = segmentsOf libm lines tokens k.
Proof.
  intros Hk. unfold segmentsOf. apply map_ext_in. intros i Hi.
  apply in_seq in Hi. now rewrite !app_nth1 by lia.
Qed.

End TokenFacts.

(** * Further properties of the code *)

(** X1. [Line::findStation] returns the first station of the wanted name:
    a station it returns has that name and no station before it in the
    line has; it returns nothing exactly when no station of the line has
    the name. *)
Theorem findStation_first_match (line : Line) (n : string) :
  (forall s : Station,
     findStation line n = Some s ->
     name s = n /\
     exists pre post : list Station,
       stations line = pre ++ s :: post /\
       forall t, In t pre -> name t <> n) /\
  (findStation line n = None <->
   forall t, In t (stations line) -> name t <> n).
Proof.
  split.
  - intros s. apply findStation_in_sound.
  - apply findStation_in_none.
Qed.

(** X2. After [addStation] the lookup of a name that was on the line
    still gives the station it gave before, also when the added station
    has that same name (a duplicate is never found); a name that was not
    on the line is found exactly when it is the added one, with the data
    of the call.  The line keeps its name and speed and grows by one
    station. *)
Theorem addStation_findStation (line : Line) (n : string) (d la lo : float)
        (n' : string) :
  findStation (addStation line n d la lo) n' =
  match findStation line n' with
  | Some s => Some s
  | None => if String.eqb n n' then Some (mkStation n d la lo) else None
  end /\
  lineName (addStation line n d la lo) = lineName line /\
  avgSpeed (addStation line n d la lo) = avgSpeed line /\
  List.length (stations (addStation line n d la lo))
  = S (List.length (stations line)).
Proof.
  split; [| split; [reflexivity | split; [reflexivity |]]].
  - unfold findStation, addStation. cbn [stations].
    now rewrite findStation_in_app.
  - unfold addStation. cbn [stations]. rewrite length_app. simpl. lia.
Qed.

(** X3. [loadData] assigns the keys ["arex"] and ["9"], whatever was stored
    there, leaves every other key of the map as it was, and loading twice
    is loading once. *)
Theorem loadData_overwrites (lines : gmap string Line) :
  loadData lines !! "arex" = Some arex /\
  loadData lines !! "9" = Some line9 /\
  (forall key : string,
     key <> "arex"%string -> key <> "9"%string ->
     loadData lines !! key = lines !! key) /\
  loadData (loadData lines) = loadData lines.
Proof.
  split; [apply loadData_arex |]. split; [apply loadData_line9 |].
  split; [apply loadData_other |].
  apply map_eq. intros key.
  destruct (decide (key = "9"%string)) as [-> | H9];
    [now rewrite !loadData_line9 |].
  destruct (decide (key = "arex"%string)) as [-> | Ha];
    [now rewrite !loadData_arex |].
  now rewrite !loadData_other.
Qed.

Lemma loadData_overwrites_witness :
  loadData (<["7" := Line_default]> (<["9" := Line_default]> ∅)) !! "7"
  = Some Line_default.
Proof.
  rewrite (proj1 (proj2 (proj2 (loadData_overwrites _))))
    by discriminate.
  apply lookup_insert_eq.
Defined.

(** X4. [main] returns 1 and prints the two usage lines, computing
    nothing, exactly when fewer than two tokens follow the program name
    ([argc < 3]); otherwise it returns 0 and prints the legs of the tokens
    joined by [", "], then one line feed; no exception escapes. *)
Theorem main_exit_status (libm : Libm) (argv : list string) :
  ((List.length argv < 3)%nat -> main libm argv = Some (1, usage)) /\
  ((3 <= List.length argv)%nat ->
   main libm argv
   = Some (0, String.concat ", "
                (segmentsOf libm (loadData ∅) (tl argv)
                            (List.length argv - 2))
              +:+ endl)).
Proof.
  split.
  - intros H. unfold main.
    now destruct (Nat.ltb_spec (List.length argv) 3); [| lia].
  - intros H. destruct argv as [|argv0 tokens]; [simpl in H; lia |].
    simpl in H. rewrite main_report by lia. cbn [tl List.length].
    now replace (S (List.length tokens) - 2)%nat
      with (List.length tokens - 1)%nat by lia.
Qed.

Lemma main_exit_status_witness :
  main SampleLibm.libm ["a.out"; "계양역(arex)"]%string = Some (1, usage) /\
  main SampleLibm.libm ["a.out"; "계양역(arex)"; "마곡나루역"]%string
  = Some (0, "9.5km(10분, 계양역-마곡나루역, 직선 8.2km)" +:+ endl).
Proof.
  split.
  - apply (proj1 (main_exit_status SampleLibm.libm
                    ["a.out"; "계양역(arex)"]%string)).
    simpl. lia.
  - rewrite (proj2 (main_exit_status SampleLibm.libm
                      ["a.out"; "계양역(arex)"; "마곡나루역"]%string))
      by (simpl; lia).
    vm_compute. reflexivity.
Defined.

(** X5. One more token at the end of an itinerary adds one leg to the
    report and changes nothing before it: the new report is the old one,
    then [", "], then the leg from the former last token to the new
    token. *)
Theorem main_append_token (libm : Libm) (argv0 : string)
        (tokens : list string) (t : string) :
  (2 <= List.length tokens)%nat ->
  exists report : string,
    main libm (argv0 :: tokens) = Some (0, report +:+ endl) /\
    main libm (argv0 :: tokens ++ [t])
    = Some (0, report +:+ ", "
               +:+ segmentOf libm (loadData ∅)
                     (nth (List.length tokens - 1) tokens EmptyString) t
               +:+ endl).
Proof.
  intros Hn.
  exists (String.concat ", "
            (segmentsOf libm (loadData ∅) tokens (List.length tokens - 1))).
  split; [now apply main_report |].
  rewrite main_report by (rewrite length_app; simpl; lia).
  rewrite length_app. simpl List.length.
  replace (List.length tokens + 1 - 1)%nat
    with (S (List.length tokens - 1)) by lia.
  rewrite segmentsOf_succ, concat_snoc, segmentsOf_app by lia.
  rewrite app_nth1 by lia.
  rewrite app_nth2 by lia.
  replace (List.length tokens - 1 + 1 - List.length tokens)%nat with 0%nat
    by lia.
  cbn [nth].
  destruct (segmentsOf libm (loadData ∅) tokens (List.length tokens - 1))
    as [|x l] eqn:E.
  - apply (f_equal (@List.length string)) in E.
    rewrite segmentsOf_length in E. simpl in E. lia.
  - now rewrite !append_assoc.
Qed.

Lemma main_append_token_witness :
  exists report : string,
    main SampleLibm.libm ["a.out"; "계양역(arex)"; "김포공항역(9)"]%string
    = Some (0, report +:+ endl) /\
    main SampleLibm.libm
         ["a.out"; "계양역(arex)"; "김포공항역(9)"; "노량진역"]%string
    = Some (0, report +:+ ", 18.4km(23분, 김포공항역-노량진역, 직선 13.5km)"
               +:+ endl).
Proof.
  destruct (main_append_token SampleLibm.libm "a.out"
              ["계양역(arex)"; "김포공항역(9)"]%string "노량진역"%string)
    as (report & H1 & H2); [simpl; lia |].
  exists report. split; [exact H1 |].
  simpl app in H2. rewrite H2. vm_compute. reflexivity.
Defined.

(** X6. On the network that [loadData] builds, a leg on any line tag
    other than ["arex"] and ["9"] is the line error naming that tag; in
    particular a token without a line tag that is not the last one gives
    the error with an empty line name. *)
Theorem builtin_lines_only (libm : Libm) :
  (forall a b tag : string,
     tag <> "arex"%string -> tag <> "9"%string ->
     calculateSegment libm (loadData ∅) a b tag
     = ("Error: 존재하지 않는 노선(" +:+ tag +:+ ")", loadData ∅)) /\
  (forall current next : string,
     hasLineTag current = false ->
     segmentOf libm (loadData ∅) current next
     = "Error: 존재하지 않는 노선()"%string).
Proof.
  assert (Habsent : forall a b tag : string,
             tag <> "arex"%string -> tag <> "9"%string ->
             calculateSegment libm (loadData ∅) a b tag
             = (lineNotFound tag, loadData ∅)).
  { intros a b tag Ha H9. apply calculateSegment_absent.
    rewrite loadData_other by assumption. apply lookup_empty. }
  split; [exact Habsent |].
  intros current next Htag. unfold segmentOf, tokenName at 1, tokenLine.
  unfold parseToken at 1 2. rewrite Htag.
  now rewrite Habsent by discriminate.
Qed.

Lemma builtin_lines_only_witness :
  main SampleLibm.libm ["a.out"; "계양역"; "김포공항역(2)"; "노량진역"]%string
  = Some (0, "Error: 존재하지 않는 노선(), Error: 존재하지 않는 노선(2)"
             +:+ endl).
Proof.
  rewrite main_report by (simpl; lia).
  change (segmentsOf SampleLibm.libm (loadData ∅)
            ["계양역"; "김포공항역(2)"; "노량진역"]%string
            (List.length ["계양역"; "김포공항역(2)"; "노량진역"]%string - 1))
    with [segmentOf SampleLibm.libm (loadData ∅) "계양역" "김포공항역(2)";
          fst (calculateSegment SampleLibm.libm (loadData ∅)
                 "김포공항역" "노량진역" "2")].
  rewrite (proj2 (builtin_lines_only SampleLibm.libm) "계양역"%string
             "김포공항역(2)"%string eq_refl).
  rewrite (proj1 (builtin_lines_only SampleLibm.libm) "김포공항역"%string
             "노량진역"%string "2"%string) by discriminate.
  reflexivity.
Defined.

(** X7. [parseToken] invents no text: the name is always a beginning of
    the token.  Without a line tag the name is the whole token; with one,
    the name has no ['('], is followed in the token by ['('], and the line
    tag is a beginning of what follows that ['(']. *)
Theorem parseToken_prefixes (token : string) :
  representable token ->
  exists n l : string,
    parseToken token = Some (n, l) /\
    begins_with n token /\
    (hasLineTag token = false -> n = token /\ l = EmptyString) /\
    (hasLineTag token = true ->
     contains n "(" = false /\
     exists after : string,
       token = n +:+ "(" +:+ after /\ begins_with l after).
Proof.
  intros Hrep. destruct (hasLineTag token) eqn:Htag.
  - destruct (parseToken_tagged_split token Hrep Htag)
      as (pre & after & l & Htok & Hpre & Hl & Hparse).
    exists pre, l. split; [exact Hparse |]. split; [now exists ("(" +:+ after)%string |].
    split; [discriminate |]. intros _. split; [exact Hpre |].
    now exists after.
  - exists token, EmptyString. split.
    + unfold parseToken. now rewrite Htag.
    + split; [exists EmptyString; now rewrite append_nil_r |].
      split; [now split | discriminate].
Qed.

Lemma parseToken_prefixes_witness :
  exists n l : string,
    parseToken "김포공항역(9)급행" = Some (n, l) /\
    begins_with n "김포공항역(9)급행".
Proof.
  destruct (parseToken_prefixes "김포공항역(9)급행"%string)
    as (n & l & H1 & H2 & _); [vm_compute; reflexivity |].
  exists n, l. split; assumption.
Defined.

(** X8. With a C library whose sine is odd, [calcStraightDist] gives the
    same value for the two orders of its endpoints: the same number, the
    same infinity, or NaN in both orders (a NaN has no sign or payload
    here). *)
Theorem great_circle_symmetric (libm : Libm) (lat1 lon1 lat2 lon2 : float) :
  odd_sin libm ->
  calcStraightDist libm lat1 lon1 lat2 lon2
  = calcStraightDist libm lat2 lon2 lat1 lon1.
Proof. intros Hodd. now apply calcStraightDist_swap. Qed.

Lemma great_circle_symmetric_witness :
  calcStraightDist SampleLibm.libm 37.571 126.736 37.567 126.829
  = calcStraightDist SampleLibm.libm 37.567 126.829 37.571 126.736.
Proof. apply great_circle_symmetric. exact SampleLibm_odd. Defined.

(** X9. A leg from a station to itself, the station's distance being a
    number and the speed of the line finite and not zero, reads 0.0 km and
    0 minutes; when the station has no coordinates that is the whole leg. *)
Theorem same_station_leg (libm : Libm) (lines : gmap string Line)
        (a tag : string) (line : Line) (s : Station) :
  lines !! tag = Some line -> findStation line a = Some s ->
  is_number (distFromStart s) = true -> is_finite (avgSpeed line) = true ->
  fst (calculateSegment libm lines a a tag)
  = "0.0km(0분, " +:+ a +:+ "-" +:+ a
    +:+ straightClause (calcStraightDist libm (lat s) (lon s) (lat s) (lon s))
    +:+ ")" /\
  ((lat s =? 0.0)%float = true ->
   fst (calculateSegment libm lines a a tag)
   = "0.0km(0분, " +:+ a +:+ "-" +:+ a +:+ ")").
Proof.
  intros H Hs Hd Hv.
  rewrite (calculateSegment_found _ _ _ _ _ _ _ _ H Hs Hs).
  unfold render, timeMinutes, trackDistance, straightDistance. cbn [fst].
  rewrite (sub_diag _ Hd). change (abs 0.0) with 0.0%float.
  rewrite (minutes_of_zero _ Hv).
  split; [reflexivity |].
  intros Hlat. rewrite calcStraightDist_sentinel by now left.
  reflexivity.
Qed.

Lemma same_station_leg_witness :
  fst (calculateSegment SampleLibm.libm (loadData ∅) "가양" "가양" "9")
  = "0.0km(0분, 가양-가양)"%string.
Proof.
  apply (proj2 (same_station_leg SampleLibm.libm (loadData ∅) "가양" "9"
                  line9 (mkStation "가양" 10.5 0.0 0.0)
                  (loadData_line9 ∅) eq_refl eq_refl eq_refl)).
  reflexivity.
Defined.

(** X10. With a C library whose sine is odd, the leg from [b] to [a] shows
    the same distance, the same minutes and the same straight-line clause as
    the leg from [a] to [b]; only the two names change places. *)
Theorem reverse_leg (libm : Libm) (lines : gmap string Line)
        (a b tag : string) (line : Line) (sa sb : Station) :
  odd_sin libm ->
  lines !! tag = Some line ->
  findStation line a = Some sa -> findStation line b = Some sb ->
  exists dist minutes clause : string,
    fst (calculateSegment libm lines a b tag)
    = dist +:+ "km(" +:+ minutes +:+ "분, " +:+ a +:+ "-" +:+ b
      +:+ clause +:+ ")" /\
    fst (calculateSegment libm lines b a tag)
    = dist +:+ "km(" +:+ minutes +:+ "분, " +:+ b +:+ "-" +:+ a
      +:+ clause +:+ ")".
Proof.
  intros Hodd H Ha Hb.
  exists (put_fixed1 (trackDistance sa sb)),
         (put_int (int_of_double (round (timeMinutes line sa sb)))),
         (straightClause (straightDistance libm sa sb)).
  rewrite (calculateSegment_found _ _ _ _ _ _ _ _ H Ha Hb).
  rewrite (calculateSegment_found _ _ _ _ _ _ _ _ H Hb Ha).
  split; [reflexivity |].
  unfold render, timeMinutes, straightDistance, trackDistance. cbn [fst].
  rewrite (abs_sub_swap (distFromStart sb)).
  now rewrite (calcStraightDist_swap libm Hodd (lat sb)).
Qed.

Lemma reverse_leg_witness :
  exists dist minutes clause : string,
    fst (calculateSegment SampleLibm.libm (loadData ∅)
           "김포공항역" "노량진역" "9")
    = dist +:+ "km(" +:+ minutes +:+ "분, 김포공항역-노량진역"
      +:+ clause +:+ ")" /\
    fst (calculateSegment SampleLibm.libm (loadData ∅)
           "노량진역" "김포공항역" "9")
    = dist +:+ "km(" +:+ minutes +:+ "분, 노량진역-김포공항역"
      +:+ clause +:+ ")".
Proof.
  exact (reverse_leg SampleLibm.libm (loadData ∅)
           "김포공항역" "노량진역" "9" line9
           (mkStation "김포공항역" 3.6 37.562 126.801)
           (mkStation "노량진역" 22.0 37.514 126.942)
           SampleLibm_odd (loadData_line9 ∅) eq_refl eq_refl).
Defined.

(** X11. For a point given twice, with coordinates that are numbers, the
    straight-line distance is 0.0 as soon as the C library has
    [sin(0) = 0] and [atan2(0, 1) = 0] and the squared cosine of the
    latitude is a number: every difference is then an exact zero. *)
Theorem great_circle_same_point (libm : Libm) (lat0 lon0 : float) :
  is_number lat0 = true -> is_number lon0 = true ->
  sin libm 0.0 = 0.0%float -> atan2 libm 0.0 1.0 = 0.0%float ->
  is_number (cos libm (toRad lat0) * cos libm (toRad lat0)) = true ->
  calcStraightDist libm lat0 lon0 lat0 lon0 = 0.0%float.
Proof.
  intros Hlat Hlon Hsin Hatan Hcos. unfold calcStraightDist.
  destruct ((lat0 =? 0.0) || (lat0 =? 0.0))%float; [reflexivity |].
  cbv zeta. rewrite (sub_diag _ Hlat), (sub_diag _ Hlon).
  change (toRad 0.0 / 2.0)%float with 0.0%float. rewrite Hsin.
  change (0.0 * 0.0)%float with 0.0%float.
  destruct (number_mul_zero _ 0.0 false Hcos eq_refl) as (s1 & H1).
  destruct (zero_mul_number _ 0.0 s1 H1 eq_refl) as (s2 & H2).
  rewrite (zero_add_zero _ s2 H2).
  change (sqrt 0.0) with 0.0%float.
  change (sqrt (1.0 - 0.0)) with 1.0%float.
  rewrite Hatan. reflexivity.
Qed.

Lemma great_circle_same_point_witness :
  calcStraightDist SampleLibm.libm 37.562 126.801 37.562 126.801
  = 0.0%float.
Proof.
  apply great_circle_same_point; reflexivity.
Defined.

(** X12. The whole loop of [main] only reads the network: for every
    argument vector it ends without an exception and the map held by the
    [Subway] object is then the map the loop started with. *)
Theorem route_read_only (libm : Libm) (argv : list string)
        (lines : gmap string Line) :
  exists result : string, route libm argv lines = Some (result, lines).
Proof.
  unfold route. destruct argv as [|argv0 tokens].
  - exists EmptyString. reflexivity.
  - eexists. apply route_fold.
Qed.

(** X13. Appending a station to a line changes no leg between stations
    that were already on the line: with the line replaced in the network
    by the longer one, [calculateSegment] returns the same text. *)
Theorem addStation_keeps_legs (libm : Libm) (lines : gmap string Line)
        (tag a b : string) (line : Line) (sa sb : Station)
        (n : string) (d la lo : float) :
  lines !! tag = Some line ->
  findStation line a = Some sa -> findStation line b = Some sb ->
  fst (calculateSegment libm
         (<[tag := addStation line n d la lo]> lines) a b tag)
  = fst (calculateSegment libm lines a b tag).
Proof.
  intros H Ha Hb.
  rewrite (calculateSegment_found libm lines a b tag line sa sb H Ha Hb).
  rewrite (calculateSegment_found libm _ a b tag
             (addStation line n d la lo) sa sb).
  - reflexivity.
  - apply lookup_insert_eq.
  - unfold findStation, addStation. cbn [stations].
    rewrite findStation_in_app. unfold findStation in Ha. now rewrite Ha.
  - unfold findStation, addStation. cbn [stations].
    rewrite findStation_in_app. unfold findStation in Hb. now rewrite Hb.
Qed.

Lemma addStation_keeps_legs_witness :
  fst (calculateSegment SampleLibm.libm
         (<["9" := addStation line9 "개화" 30.0 0.0 0.0]> (loadData ∅))
         "개화" "가양" "9")
  = fst (calculateSegment SampleLibm.libm (loadData ∅) "개화" "가양" "9").
Proof.
  exact (addStation_keeps_legs SampleLibm.libm (loadData ∅) "9"
           "개화" "가양" line9
           (mkStation "개화" 0.0 0.0 0.0) (mkStation "가양" 10.5 0.0 0.0)
           "개화" 30.0 0.0 0.0 (loadData_line9 ∅) eq_refl eq_refl).
Defined.
